(** * Task-template dashboard: grouping, selection, bulk copy and handler effects

    A shallow embedding of the React components
    - [components/TaskTemplate/TaskTemplate.js]  (module [TemplatePage]),
    - [components/TaskManager/TaskTemplate.js]   (module [ManagerTemplate]),
    - the task modal with its completion flow    (module [TaskModal]).

    JavaScript objects are finite maps from property names to values, looked
    up through [Object.prototype] where the code reads them with [obj[key]];
    asynchronous handlers are programs of a small trace-and-exception monad
    whose events are the calls the handler makes (axios, console, toast and
    the state setters of the component).  Numbers the code computes with are
    IEEE 754 binary64 values, with the operations of the standard library's
    [SpecFloat]. *)

From Stdlib Require Import ZArith QArith Qround List Permutation SpecFloat.
From stdpp Require Import base gmap strings list fin_maps pretty.

Local Open Scope string_scope.
Local Open Scope list_scope.
Local Open Scope Z_scope.

(** ** JavaScript numbers *)

Module Number.

(** A Number is a binary64 value: 53 bits of precision, infinities at
    exponent 1024.  [-], [*] and [+] round to nearest, ties to even. *)
Definition number : Type := spec_float.

Definition sub : number → number → number := SFsub 53 1024.
Definition mul : number → number → number := SFmul 53 1024.
Definition add : number → number → number := SFadd 53 1024.

(** The Number nearest to an integer. *)
Definition of_Z (z : Z) : number := binary_normalize 53 1024 z 0 false.

(** What [Math.floor], [Math.round] and [parseInt] return: a Number that is
    a whole number (given by its value), an infinity or [NaN].  The sign of a
    zero is not kept: it shows neither in [JSON.stringify] nor in a sum with
    a Number that is not a negative zero. *)
Inductive whole :=
| Int (z : Z)
| Infinity (negative : bool)
| NaN.

Definition of_whole (w : whole) : number :=
  match w with
  | Int z => of_Z z
  | Infinity s => S754_infinity s
  | NaN => S754_nan
  end.

(** [Math.floor]: the greatest whole Number not above [x].  A finite Number
    is [±m * 2^e]; shifting by a negative [e] is the division by [2^-e]
    rounded down. *)
Definition Math_floor (x : number) : whole :=
  match x with
  | S754_nan => NaN
  | S754_infinity s => Infinity s
  | S754_zero _ => Int 0
  | S754_finite s m e => Int (Z.shiftl (cond_Zopp s (Z.pos m)) e)
  end.

(** [Math.round]: the whole Number nearest to [x], the upper one of two
    that are equally near, that is [floor (x + 1/2)] computed exactly. *)
Definition Math_round (x : number) : whole :=
  match x with
  | S754_finite s m e =>
      if e <? 0
      then Int ((2 * cond_Zopp s (Z.pos m) + 2 ^ (- e)) / 2 ^ (1 - e))
      else Int (Z.shiftl (cond_Zopp s (Z.pos m)) e)
  | _ => Math_floor x
  end.

(** [a + b] on two whole Numbers; the sum of two whole Numbers is whole. *)
Definition whole_add (a b : whole) : whole :=
  Math_floor (add (of_whole a) (of_whole b)).

(** *** Number::toString on whole Numbers

    The digits are those of the shortest decimal that reads back as the
    same Number, the nearest one if several of that length do. *)

(** The number of decimal digits of a positive integer. *)
Fixpoint digits_from (fuel : nat) (z : Z) : Z :=
  match fuel with
  | O => 1
  | S fuel => if z <? 10 then 1 else 1 + digits_from fuel (z / 10)
  end.

Definition digits (z : Z) : Z := digits_from (Z.to_nat (Z.log2 z)) z.

Definition same_number (a b : Z) : bool := SFeqb (of_Z a) (of_Z b).

Definition nearer (z lo hi p : Z) : Z :=
  match (z - lo) ?= (hi - z) with
  | Lt => lo
  | Gt => hi
  | Eq => if Z.even (lo / p) then lo else hi
  end.

(** With [p] the power of ten of the last digit kept: the multiples of [p]
    around [z] are tried, then one more digit is kept. *)
Fixpoint shortest_from (fuel : nat) (z p : Z) : Z :=
  let lo := z / p * p in
  let hi := lo + p in
  match same_number lo z, same_number hi z, fuel with
  | true, true, _ => nearer z lo hi p
  | true, false, _ => lo
  | false, true, _ => hi
  | false, false, S fuel => shortest_from fuel z (p / 10)
  | false, false, O => z
  end.

(** The value of the Number nearest to an integer. *)
Definition nearest (z : Z) : Z :=
  match Math_floor (of_Z z) with
  | Int v => v
  | _ => z
  end.

(** The shortest decimal, as an integer, for the Number nearest to the
    positive integer [z]. *)
Definition shortest (z : Z) : Z :=
  let v := nearest z in
  let n := digits v in shortest_from (Z.to_nat n) v (10 ^ (n - 1)).

Fixpoint strip_from (fuel : nat) (c : Z) : Z :=
  match fuel with
  | O => c
  | S fuel => if c mod 10 =? 0 then strip_from fuel (c / 10) else c
  end.

(** The digits of [c] without its trailing zeros. *)
Definition significand (c : Z) : Z := strip_from (Z.to_nat (digits c)) c.

Definition leading_digit (c : Z) : Z := c / 10 ^ (digits c - 1).

(** [d.ddde+n], or [de+n] for a single digit. *)
Definition exponent_form (c : Z) : string :=
  match pretty (significand c) with
  | String d "" => String d "" +:+ "e+" +:+ pretty (digits c - 1)
  | String d rest => String d "" +:+ "." +:+ rest +:+ "e+" +:+ pretty (digits c - 1)
  | "" => ""
  end.

(** Below [10^21] the digits are written out, zeros included; from there
    on the exponent form is used. *)
Definition to_string (z : Z) : string :=
  if z =? 0 then "0"
  else
    let c := shortest (Z.abs z) in
    (if z <? 0 then "-" else "")
      +:+ (if c <? 10 ^ 21 then pretty c else exponent_form c).

(** [parseInt(x)] on a whole Number: [x] is turned into its string and the
    leading integer of the string is read.  Written out in digits the string
    reads back as [x]; in the exponent form what is read is the digit before
    the point or the [e]; [Infinity] and [NaN] start with no digit. *)
Definition parseInt (w : whole) : whole :=
  match w with
  | Int z =>
      if Z.abs z <? 10 ^ 21 then Int z
      else Int (Z.sgn z * leading_digit (shortest (Z.abs z)))
  | _ => NaN
  end.

(** [parseFloat(x)] on a Number: the string of a Number reads back as that
    Number, [-0] is written [0], and [NaN] and the infinities read as
    themselves. *)
Definition parseFloat (x : number) : number :=
  match x with
  | S754_zero _ => S754_zero false
  | _ => x
  end.

(** [x || 0]: [NaN] and the zeros are falsy. *)
Definition or_zero (x : number) : number :=
  match x with
  | S754_nan | S754_zero _ => S754_zero false
  | _ => x
  end.

Definition or_zero_whole (w : whole) : whole :=
  match w with
  | NaN | Int 0 => Int 0
  | _ => w
  end.

End Number.

(** ** JavaScript values and objects *)

(** Primitive property values.  A missing property ([undefined]) is the
    [None] of a lookup.  Each character of a [string] stands for one UTF-16
    code unit, so that [String.length] is the [.length] of the source. *)
Inductive value :=
| VNull
| VBool (b : bool)
| VNum (n : Z)
| VStr (s : string).

#[global] Instance value_eq_dec : EqDecision value.
Proof. solve_decision. Defined.

(** [!!x] of the source: the truthiness of a possibly missing value. *)
Definition truthy (v : option value) : bool :=
  match v with
  | None | Some VNull => false
  | Some (VBool b) => b
  | Some (VNum n) => negb (n =? 0)
  | Some (VStr s) => negb (String.eqb s "")
  end.

(** [x === y] on primitives. *)
Definition strict_eq (x y : option value) : bool := bool_decide (x = y).

(** The string a value contributes to a template literal [`${x}`]. *)
Definition to_string (v : option value) : string :=
  match v with
  | None => "undefined"
  | Some VNull => "null"
  | Some (VBool true) => "true"
  | Some (VBool false) => "false"
  | Some (VNum n) => Number.to_string n
  | Some (VStr s) => s
  end.

(** The property names every object literal inherits from
    [Object.prototype].  Reading one of them on an object that has no own
    property of that name yields a function (or, for [__proto__], the
    prototype object): a value that is truthy, is not [undefined] and has no
    [push] method. *)
Definition object_prototype_keys : list string :=
  [ "constructor"; "__defineGetter__"; "__defineSetter__"; "hasOwnProperty";
    "__lookupGetter__"; "__lookupSetter__"; "isPrototypeOf";
    "propertyIsEnumerable"; "toString"; "valueOf"; "__proto__";
    "toLocaleString" ].

Definition inherited (k : string) : bool :=
  bool_decide (k ∈ object_prototype_keys).

(** The three outcomes of [obj[key]] on an object literal used as a map. *)
Inductive property (V : Type) :=
| Own (v : V)
| Inherited
| Missing.
Arguments Own {V} v.
Arguments Inherited {V}.
Arguments Missing {V}.

#[global] Instance property_eq_dec {V} `{EqDecision V} : EqDecision (property V).
Proof. solve_decision. Defined.

Definition get {V : Type} (obj : gmap string V) (key : string) : property V :=
  match obj !! key with
  | Some v => Own v
  | None => if inherited key then Inherited else Missing
  end.

(** Exceptions: a [TypeError] raised by the interpreter, or the rejection of
    an axios promise, with [error.response?.status]. *)
Inductive exn :=
| TypeError
| AxiosError (status : option Z).

Inductive result (A : Type) :=
| Ok (a : A)
| Throw (e : exn).
Arguments Ok {A} a.
Arguments Throw {A} e.

(** ** Data model *)

(** The [client_id] and [employee_id] properties of an assignee. *)
Inductive nullable :=
| Undefined
| Null
| Str (s : string).

Record Assignee := {
  a_id : string;
  a_name : string;
  a_type : string;
  a_client_id : nullable;
  a_employee_id : nullable
}.

(** A template (and any object of the same shape: the form data, a request
    body).  [assignees] is [None] when the property is missing or null;
    [props] holds the other own properties ([_id], [title], [is_active],
    and whatever else the server sends). *)
Record Template := {
  assignees : option (list Assignee);
  props : gmap string value
}.

#[global] Instance nullable_eq_dec : EqDecision nullable.
Proof. solve_decision. Defined.
#[global] Instance Assignee_eq_dec : EqDecision Assignee.
Proof. solve_decision. Defined.
#[global] Instance Template_eq_dec : EqDecision Template.
Proof. solve_decision. Defined.

Definition is_client (a : Assignee) : bool := String.eqb (a_type a) "client".
Definition is_employee (a : Assignee) : bool := String.eqb (a_type a) "employee".

(** [{...template, [key]: v}] and [const { [key]: _, ...rest } = template]
    for a property other than [assignees]. *)
Definition with_prop (key : string) (v : value) (t : Template) : Template :=
  {| assignees := assignees t; props := <[key := v]> (props t) |}.

Definition without_prop (key : string) (t : Template) : Template :=
  {| assignees := assignees t; props := delete key (props t) |}.

Definition with_assignees (l : list Assignee) (t : Template) : Template :=
  {| assignees := Some l; props := props t |}.

(** The empty object [{}], also what spreading [undefined] gives. *)
Definition empty_object : Template := {| assignees := None; props := ∅ |}.

(** ** Handlers as traces

    An asynchronous handler is a program that emits events (the calls it
    makes) and ends normally or with an exception.  What a promise settles
    to is an input of the handler: [Ok data] when it resolves, [Throw error]
    when it rejects.  [C] is the type of the state-setter calls of the
    component at hand. *)

#[local] Set Warnings "-register-all".
Inductive Event (C : Type) :=
| GetAccessToken
| AxiosGet (url : string) (bearer : string)
| AxiosPost (url : string) (body : Template) (bearer : string)
| AxiosPut (url : string) (body : Template) (bearer : string)
| AxiosDelete (url : string) (bearer : string)
| ConsoleLog (msg : string)
| ConsoleError (msg : string)
| ToastError (msg : string)
| WindowConfirm (msg : string)
| CallProp (name : string) (arg : option Template)
| SetState (call : C)
| Fork (task : list (Event C)).
Arguments GetAccessToken {C}.
Arguments AxiosGet {C} url bearer.
Arguments AxiosPost {C} url body bearer.
Arguments AxiosPut {C} url body bearer.
Arguments AxiosDelete {C} url bearer.
Arguments ConsoleLog {C} msg.
Arguments ConsoleError {C} msg.
Arguments ToastError {C} msg.
Arguments WindowConfirm {C} msg.
Arguments CallProp {C} name arg.
Arguments SetState {C} call.
Arguments Fork {C} task.

Record Eff (C A : Type) := mkEff {
  trace : list (Event C);
  outcome : result A
}.
Arguments mkEff {C A} trace outcome.
Arguments trace {C A} e.
Arguments outcome {C A} e.

#[global] Instance eff_ret {C} : MRet (Eff C) :=
  λ A a, mkEff [] (Ok a).

#[global] Instance eff_bind {C} : MBind (Eff C) :=
  λ A B f m,
    match outcome m with
    | Ok a => mkEff (trace m ++ trace (f a)) (outcome (f a))
    | Throw e => mkEff (trace m) (Throw e)
    end.

Section Combinators.
Context {C : Type}.

Definition emit (ev : Event C) : Eff C unit := mkEff [ev] (Ok tt).

Definition throw {A} (e : exn) : Eff C A := mkEff [] (Throw e).

(** [await call]: the call is made, and the handler goes on with what the
    promise settles to. *)
Definition await {A} (ev : Event C) (settled : result A) : Eff C A :=
  mkEff [ev] settled.

(** A call that returns a promise nobody awaits yet. *)
Definition request {A} (ev : Event C) (settled : result A) : Eff C (result A) :=
  mkEff [ev] (Ok settled).

(** [await Promise.all(promises)] *)
Fixpoint promise_all {A} (promises : list (result A)) : Eff C (list A) :=
  match promises with
  | [] => mret []
  | Ok a :: rest => l ← promise_all rest; mret (a :: l)
  | Throw e :: _ => throw e
  end.

(** [try { body } catch (error) { handler }] *)
Definition try_catch (body : Eff C unit) (handler : exn → Eff C unit) : Eff C unit :=
  match outcome body with
  | Ok _ => body
  | Throw e => mkEff (trace body ++ trace (handler e)) (outcome (handler e))
  end.

(** An async function called without [await]: its events belong to a
    task of its own, and the caller goes on. *)
Definition fork (task : Eff C unit) : Eff C unit :=
  emit (Fork (trace task)).

(** [array.map((x, i) => f(x, i))] with an effectful callback. *)
Fixpoint map_indexed {A B} (f : nat → A → Eff C B) (i : nat) (l : list A)
  : Eff C (list B) :=
  match l with
  | [] => mret []
  | x :: rest => y ← f i x; ys ← map_indexed f ((i + 1)%nat) rest; mret (y :: ys)
  end.

(** All events of a trace, those of forked tasks included, in the order
    of a run in which every forked task runs as soon as it is forked. *)
Fixpoint flatten_event (ev : Event C) : list (Event C) :=
  match ev with
  | Fork task =>
      (fix go (l : list (Event C)) : list (Event C) :=
         match l with
         | [] => []
         | e :: rest => flatten_event e ++ go rest
         end) task
  | _ => [ev]
  end.

Definition flatten (tr : list (Event C)) : list (Event C) :=
  flat_map flatten_event tr.

Definition is_mutation (ev : Event C) : bool :=
  match ev with
  | AxiosPost _ _ _ | AxiosPut _ _ _ | AxiosDelete _ _ => true
  | _ => false
  end.

(** [error.response?.status === 403] and [if (error.response)] *)
Definition status_is (code : Z) (error : exn) : bool :=
  match error with
  | AxiosError (Some c) => c =? code
  | _ => false
  end.

Definition has_response (error : exn) : bool :=
  match error with
  | AxiosError (Some _) => true
  | _ => false
  end.
End Combinators.

(** The endpoints of [config/api], which the components import. *)
Record ApiEndpoints := {
  TASK_TEMPLATES : string;
  TASKS : string;
  TIMESHEET_ENTRIES : string
}.

(** What the refetch forked by a handler will meet: the token promise and
    the promise of the GET request. *)
Record Refetch := {
  refetch_token : result string;
  refetch_response : result (list Template)
}.

(** ** components/TaskTemplate/TaskTemplate.js *)

Module TemplatePage.

(** The component state.  A handler is a closure of one render: it reads
    the [State] of that render, whatever the state has become by the time
    its promises settle.  (The [creators] map, which nothing below reads, is
    left out; [isAdmin] is what the mount effect stored.) *)
Record State := {
  templates : list Template;
  isOpen : bool;
  searchQuery : string;
  searchResults : list Assignee;
  selectedAssignees : list Assignee;
  editingTemplate : option Template;
  expandedGroups : gmap string bool;
  isAdmin : bool;
  formData : Template;
  isBulkCopyModalOpen : bool;
  selectedClientTemplates : option (list Template);
  newClientSearchQuery : string;
  newClientSearchResults : list Assignee
}.

Inductive Setter :=
| setTemplates (data : list Template)
| setIsOpen (b : bool)
| setSearchQuery (q : string)
| setSearchResults (l : list Assignee)
| setSelectedAssignees (l : list Assignee)
| setEditingTemplate (t : option Template)
| setExpandedGroups (updater : gmap string bool → gmap string bool)
| setFormData (fd : Template)
| setBulkCopyModalOpen (b : bool)
| setSelectedClientTemplates (l : option (list Template))
| setNewClientSearchQuery (q : string)
| setNewClientSearchResults (l : list Assignee).

Definition apply_setter (st : State) (call : Setter) : State :=
  let '(Build_State ts io sq sr sa et eg ad fd bo sc nq nr) := st in
  match call with
  | setTemplates x => Build_State x io sq sr sa et eg ad fd bo sc nq nr
  | setIsOpen x => Build_State ts x sq sr sa et eg ad fd bo sc nq nr
  | setSearchQuery x => Build_State ts io x sr sa et eg ad fd bo sc nq nr
  | setSearchResults x => Build_State ts io sq x sa et eg ad fd bo sc nq nr
  | setSelectedAssignees x => Build_State ts io sq sr x et eg ad fd bo sc nq nr
  | setEditingTemplate x => Build_State ts io sq sr sa x eg ad fd bo sc nq nr
  | setExpandedGroups f => Build_State ts io sq sr sa et (f eg) ad fd bo sc nq nr
  | setFormData x => Build_State ts io sq sr sa et eg ad x bo sc nq nr
  | setBulkCopyModalOpen x => Build_State ts io sq sr sa et eg ad fd x sc nq nr
  | setSelectedClientTemplates x => Build_State ts io sq sr sa et eg ad fd bo x nq nr
  | setNewClientSearchQuery x => Build_State ts io sq sr sa et eg ad fd bo sc x nr
  | setNewClientSearchResults x => Build_State ts io sq sr sa et eg ad fd bo sc nq x
  end.

(** The state after the events of a trace have happened in order; a forked
    task runs to its end where it is forked. *)
Fixpoint run_event (st : State) (ev : Event Setter) : State :=
  match ev with
  | SetState call => apply_setter st call
  | Fork task =>
      (fix go (st : State) (l : list (Event Setter)) : State :=
         match l with
         | [] => st
         | e :: rest => go (run_event st e) rest
         end) st task
  | _ => st
  end.

Definition run (st : State) (tr : list (Event Setter)) : State :=
  foldl run_event st tr.

Definition set (call : Setter) : Eff Setter unit := emit (SetState call).

Definition initialFormData : Template :=
  {| assignees := Some [];
     props := list_to_map
       [ ("title", VStr ""); ("description", VStr ""); ("frequency", VStr "daily");
         ("priority", VStr "medium"); ("job_type", VStr ""); ("is_active", VBool true) ] |}.

Definition initialState : State :=
  {| templates := []; isOpen := false; searchQuery := ""; searchResults := [];
     selectedAssignees := []; editingTemplate := None; expandedGroups := ∅;
     isAdmin := false; formData := initialFormData; isBulkCopyModalOpen := false;
     selectedClientTemplates := None; newClientSearchQuery := "";
     newClientSearchResults := [] |}.

(** *** Grouping (lines 94-103) *)

(** [template.assignees?.find(a => a.type === 'client')] *)
Definition clientAssignee (template : Template) : option Assignee :=
  match assignees template with
  | Some l => List.find is_client l
  | None => None
  end.

(** [clientAssignee ? clientAssignee.name : 'unassigned'] *)
Definition groupKey (template : Template) : string :=
  match clientAssignee template with
  | Some a => a_name a
  | None => "unassigned"
  end.

(** The callback of the [reduce]:
    [if (!groups[groupKey]) groups[groupKey] = []; groups[groupKey].push(template)].
    An own property holds an array, which is truthy; an inherited one is
    truthy too, so nothing is assigned and [push] is called on a value
    that has no such method. *)
Definition group_step (groups : gmap string (list Template)) (template : Template)
  : result (gmap string (list Template)) :=
  let key := groupKey template in
  match get groups key with
  | Own arr => Ok (<[key := arr ++ [template]]> groups)
  | Missing => Ok (<[key := [template]]> groups)
  | Inherited => Throw TypeError
  end.

Fixpoint reduce_groups (groups : gmap string (list Template)) (templates : list Template)
  : result (gmap string (list Template)) :=
  match templates with
  | [] => Ok groups
  | template :: rest =>
      match group_step groups template with
      | Ok groups' => reduce_groups groups' rest
      | Throw e => Throw e
      end
  end.

Definition groupedTemplates (templates : list Template)
  : result (gmap string (list Template)) :=
  reduce_groups ∅ templates.

(** *** Fetching and the expand state (lines 59-91) *)

(** The [forEach] of [fetchTemplates]: a key goes into [newGroups] when
    [expandedGroups[groupKey] === undefined], where [expandedGroups] is the
    map of the render the handler belongs to. *)
Definition newGroups (expandedGroups : gmap string bool) (data : list Template)
  : gmap string bool :=
  foldl (λ acc template,
           let key := groupKey template in
           match get expandedGroups key with
           | Missing => <[key := false]> acc
           | _ => acc
           end) ∅ data.

Section Handlers.
Context (API : ApiEndpoints).

Definition fetchTemplates (st : State) (io : Refetch) : Eff Setter unit :=
  try_catch
    (token ← await GetAccessToken (refetch_token io);
     data ← await (AxiosGet (TASK_TEMPLATES API) token) (refetch_response io);
     set (setTemplates data);;
     let fresh := newGroups (expandedGroups st) data in
     (* setExpandedGroups(prev => ({ ...prev, ...newGroups })) *)
     set (setExpandedGroups (λ prev, fresh ∪ prev)))
    (λ error, emit (ConsoleError "Error fetching templates:")).

(** [!prev[groupKey]] *)
Definition not_expanded (prev : gmap string bool) (key : string) : bool :=
  match get prev key with
  | Own b => negb b
  | Inherited => false
  | Missing => true
  end.

Definition toggleGroup (key : string) : Eff Setter unit :=
  set (setExpandedGroups (λ prev, <[key := not_expanded prev key]> prev)).

(** *** Assignee search and selection (lines 105-141) *)

Definition searchAssignees (st : State) (query : string)
    (tok : result string) (response : result (option (list Assignee)))
  : Eff Setter unit :=
  if String.eqb query "" then set (setSearchResults [])
  else
    try_catch
      (token ← await GetAccessToken tok;
       data ← await (AxiosGet (TASKS API +:+ "/search_assignees?query=" +:+ query) token)
                    response;
       set (setSearchResults (default [] data)))
      (λ error, emit (ConsoleError "Error searching assignees:")).

Definition handleSearchChange (st : State) (query : string)
    (tok : result string) (response : result (option (list Assignee)))
  : Eff Setter unit :=
  set (setSearchQuery query);;
  fork (searchAssignees st query tok response).

Definition handleSelectAssignee (st : State) (assignee : Assignee) : Eff Setter unit :=
  match List.find (λ a, String.eqb (a_id a) (a_id assignee)) (selectedAssignees st) with
  | None =>
      let newAssignees := selectedAssignees st ++ [assignee] in
      set (setSelectedAssignees newAssignees);;
      set (setFormData (with_assignees newAssignees (formData st)))
  | Some _ => mret tt
  end;;
  set (setSearchQuery "");;
  set (setSearchResults []).

Definition handleRemoveAssignee (st : State) (assigneeId : string) : Eff Setter unit :=
  let newAssignees :=
    List.filter (λ a, negb (String.eqb (a_id a) assigneeId)) (selectedAssignees st) in
  set (setSelectedAssignees newAssignees);;
  set (setFormData (with_assignees newAssignees (formData st))).

(** *** The form (lines 143-210) *)

Definition resetForm : Eff Setter unit :=
  set (setFormData initialFormData);;
  set (setSelectedAssignees []);;
  set (setEditingTemplate None).

Definition form_fields : list string :=
  [ "title"; "description"; "frequency"; "priority"; "job_type"; "is_active" ].

(** [{ key: source.key }]: the property is written, with [undefined] when
    the source has none; a property holding [undefined] is not sent. *)
Definition copy_prop (source : Template) (target : gmap string value) (key : string)
  : gmap string value :=
  match props source !! key with
  | Some v => <[key := v]> target
  | None => delete key target
  end.

Definition handleEdit (template : Template) : Eff Setter unit :=
  set (setEditingTemplate (Some template));;
  set (setFormData {| assignees := assignees template;
                      props := foldl (copy_prop template) ∅ form_fields |});;
  set (setSelectedAssignees (default [] (assignees template)));;
  set (setIsOpen true).

(** [{ ...editingTemplate, title: formData.title, ..., is_active: formData.is_active }] *)
Definition updateData (editing form : Template) : Template :=
  {| assignees := assignees form;
     props := foldl (copy_prop form) (props editing) form_fields |}.

Definition handleSubmit (st : State) (tok : result string)
    (mutation : result Template) (io : Refetch) : Eff Setter unit :=
  if negb (isAdmin st) then
    emit (ToastError "You do not have permission to create or edit templates")
  else
    try_catch
      (token ← await GetAccessToken tok;
       match editingTemplate st with
       | Some editing =>
           await (AxiosPut (TASK_TEMPLATES API +:+ "/" +:+ to_string (props editing !! "_id"))
                           (updateData editing (formData st)) token) mutation
       | None =>
           await (AxiosPost (TASK_TEMPLATES API) (formData st) token) mutation
       end;;
       set (setIsOpen false);;
       fork (fetchTemplates st io);;
       resetForm)
      (λ error,
         emit (ConsoleError "Error saving template:");;
         if status_is 403 error
         then emit (ToastError "You do not have permission to perform this action")
         else mret tt).

(** *** Toggle, duplicate, delete (lines 212-238, 314-354) *)

(** [{ ...template, is_active: !currentStatus }], with
    [template = templates.find(t => t._id === templateId)]. *)
Definition togglePayload (templates : list Template)
    (templateId currentStatus : option value) : Template :=
  let template := List.find (λ t, strict_eq (props t !! "_id") templateId) templates in
  with_prop "is_active" (VBool (negb (truthy currentStatus)))
            (default empty_object template).

Definition handleToggleActive (st : State) (templateId currentStatus : option value)
    (tok : result string) (mutation : result Template) (io : Refetch)
  : Eff Setter unit :=
  try_catch
    (token ← await GetAccessToken tok;
     await (AxiosPut (TASK_TEMPLATES API +:+ "/" +:+ to_string templateId)
                     (togglePayload (templates st) templateId currentStatus) token)
           mutation;;
     fork (fetchTemplates st io))
    (λ error, emit (ConsoleError "Error updating template:")).

Definition handleDuplicate (st : State) (template : Template)
    (tok : result string) (mutation : result Template) (io : Refetch)
  : Eff Setter unit :=
  try_catch
    (token ← await GetAccessToken tok;
     await (AxiosPost (TASK_TEMPLATES API +:+ "/" +:+ to_string (props template !! "_id")
                         +:+ "/duplicate")
                      empty_object token) mutation;;
     fork (fetchTemplates st io))
    (λ error, emit (ConsoleError "Error duplicating template:")).

Definition handleDelete (st : State) (templateId : option value) (confirmed : bool)
    (tok : result string) (mutation : result Template) (io : Refetch)
  : Eff Setter unit :=
  emit (WindowConfirm "Are you sure you want to delete this template?");;
  if negb confirmed then mret tt
  else
    try_catch
      (token ← await GetAccessToken tok;
       await (AxiosDelete (TASK_TEMPLATES API +:+ "/" +:+ to_string templateId) token)
             mutation;;
       fork (fetchTemplates st io))
      (λ error,
         emit (ConsoleError "Error deleting template:");;
         if has_response error then emit (ConsoleError "Error details:") else mret tt).

Definition handleDeleteGroup (st : State) (templates : list Template) (confirmed : bool)
    (tok : result string) (mutations : nat → result Template) (io : Refetch)
  : Eff Setter unit :=
  emit (WindowConfirm "Are you sure you want to delete all templates for this client?");;
  if negb confirmed then mret tt
  else
    try_catch
      (token ← await GetAccessToken tok;
       deletePromises ← map_indexed (λ i template,
           request (AxiosDelete (TASK_TEMPLATES API +:+ "/"
                                   +:+ to_string (props template !! "_id")) token)
                   (mutations i)) 0%nat templates;
       promise_all deletePromises;;
       fork (fetchTemplates st io))
      (λ error,
         emit (ConsoleError "Error deleting templates:");;
         if has_response error then emit (ConsoleError "Error details:") else mret tt).

(** *** Bulk copy (lines 241-311) *)

(** The object the [map] callback of [handleBulkCopy] posts. *)
Definition newTemplate (newClient : Assignee) (template : Template) : Template :=
  (* template.assignees?.filter(a => a.type === 'employee') || [] *)
  let employeeAssignees := default [] (List.filter is_employee <$> assignees template) in
  (* const { _id, ...templateWithoutId } = template *)
  let templateWithoutId := without_prop "_id" template in
  with_assignees
    (employeeAssignees ++
       [ {| a_id := a_id newClient; a_name := a_name newClient; a_type := "client";
            a_client_id := Undefined; a_employee_id := Undefined |} ])
    templateWithoutId.

Definition handleBulkCopy (st : State) (newClient : Assignee)
    (tok : result string) (mutations : nat → result Template) (io : Refetch)
  : Eff Setter unit :=
  try_catch
    (token ← await GetAccessToken tok;
     emit (ConsoleLog "Selected templates to copy:");;
     emit (ConsoleLog "New client to assign:");;
     match selectedClientTemplates st with
     | None => throw TypeError
     | Some selected =>
         copyPromises ← map_indexed (λ i template,
             emit (ConsoleLog "Original template assignees:");;
             emit (ConsoleLog "Filtered employee assignees:");;
             emit (ConsoleLog "New template to create:");;
             request (AxiosPost (TASK_TEMPLATES API) (newTemplate newClient template) token)
                     (mutations i)) 0%nat selected;
         promise_all copyPromises;;
         set (setBulkCopyModalOpen false);;
         set (setSelectedClientTemplates None);;
         set (setNewClientSearchQuery "");;
         set (setNewClientSearchResults []);;
         fork (fetchTemplates st io)
     end)
    (λ error,
       emit (ConsoleError "Error bulk copying templates:");;
       emit (ConsoleError "Error details:")).

Definition searchClients (st : State) (query : string)
    (tok : result string) (response : result (option (list Assignee)))
  : Eff Setter unit :=
  if String.eqb query "" then set (setNewClientSearchResults [])
  else
    try_catch
      (token ← await GetAccessToken tok;
       data ← await (AxiosGet (TASKS API +:+ "/search_assignees?query=" +:+ query) token)
                    response;
       let clientResults := List.filter is_client (default [] data) in
       set (setNewClientSearchResults clientResults))
      (λ error,
         emit (ConsoleError "Error searching clients:");;
         set (setNewClientSearchResults [])).

(** The [onChange] of the client search box of the bulk-copy modal
    (lines 675-683). *)
Definition handleNewClientSearchChange (st : State) (value : string)
    (tok : result string) (response : result (option (list Assignee)))
  : Eff Setter unit :=
  set (setNewClientSearchQuery value);;
  if (2 <=? String.length value)%nat
  then fork (searchClients st value tok response)
  else set (setNewClientSearchResults []).
End Handlers.

End TemplatePage.

(** ** components/TaskManager/TaskTemplate.js *)

Module ManagerTemplate.

Record State := {
  templates : list Template;
  isOpen : bool;
  formData : Template;
  searchResults : list Assignee;
  searchQuery : string
}.

Inductive Setter :=
| setTemplates (data : list Template)
| setIsOpen (b : bool)
| setFormData (fd : Template)
| setSearchResults (l : list Assignee)
| setSearchQuery (q : string).

Definition apply_setter (st : State) (call : Setter) : State :=
  let '(Build_State ts io fd sr sq) := st in
  match call with
  | setTemplates x => Build_State x io fd sr sq
  | setIsOpen x => Build_State ts x fd sr sq
  | setFormData x => Build_State ts io x sr sq
  | setSearchResults x => Build_State ts io fd x sq
  | setSearchQuery x => Build_State ts io fd sr x
  end.

Fixpoint run_event (st : State) (ev : Event Setter) : State :=
  match ev with
  | SetState call => apply_setter st call
  | Fork task =>
      (fix go (st : State) (l : list (Event Setter)) : State :=
         match l with
         | [] => st
         | e :: rest => go (run_event st e) rest
         end) st task
  | _ => st
  end.

Definition run (st : State) (tr : list (Event Setter)) : State :=
  foldl run_event st tr.

Definition set (call : Setter) : Eff Setter unit := emit (SetState call).

(** [formData.assignees] *)
Definition assignees_of_form (st : State) : option (list Assignee) :=
  assignees (formData st).

Section Handlers.
Context (API : ApiEndpoints).

Definition fetchTemplates (io : Refetch) : Eff Setter unit :=
  try_catch
    (token ← await GetAccessToken (refetch_token io);
     data ← await (AxiosGet (TASK_TEMPLATES API) token) (refetch_response io);
     set (setTemplates data))
    (λ error, emit (ConsoleError "Error fetching templates:")).

Definition handleSubmit (st : State) (tok : result string)
    (mutation : result Template) (io : Refetch) : Eff Setter unit :=
  try_catch
    (token ← await GetAccessToken tok;
     await (AxiosPost (TASK_TEMPLATES API) (formData st) token) mutation;;
     set (setIsOpen false);;
     fork (fetchTemplates io);;
     set (setFormData TemplatePage.initialFormData))
    (λ error, emit (ConsoleError "Error creating template:")).

Definition handleToggleActive (st : State) (templateId currentStatus : option value)
    (tok : result string) (mutation : result Template) (io : Refetch)
  : Eff Setter unit :=
  try_catch
    (token ← await GetAccessToken tok;
     await (AxiosPut (TASK_TEMPLATES API +:+ "/" +:+ to_string templateId)
                     (TemplatePage.togglePayload (templates st) templateId currentStatus)
                     token)
           mutation;;
     fork (fetchTemplates io))
    (λ error, emit (ConsoleError "Error updating template:")).

Definition searchAssignees (query : string)
    (tok : result string) (response : result (option (list Assignee)))
  : Eff Setter unit :=
  if String.eqb query "" then set (setSearchResults [])
  else
    try_catch
      (token ← await GetAccessToken tok;
       data ← await (AxiosGet (TASKS API +:+ "/search_assignees?query=" +:+ query) token)
                    response;
       set (setSearchResults (default [] data)))
      (λ error, emit (ConsoleError "Error searching assignees:")).

(** The [onChange] of the assignee search box (lines 247-254). *)
Definition handleSearchChange (query : string)
    (tok : result string) (response : result (option (list Assignee)))
  : Eff Setter unit :=
  set (setSearchQuery query);;
  if (2 <=? String.length query)%nat
  then fork (searchAssignees query tok response)
  else set (setSearchResults []).

Definition handleSelectAssignee (st : State) (assignee : Assignee) : Eff Setter unit :=
  match assignees (formData st) with
  | None => throw TypeError
  | Some selected =>
      match List.find (λ a, String.eqb (a_id a) (a_id assignee)) selected with
      | None => set (setFormData (with_assignees (selected ++ [assignee]) (formData st)))
      | Some _ => mret tt
      end
  end;;
  set (setSearchQuery "");;
  set (setSearchResults []).

Definition handleRemoveAssignee (st : State) (assigneeId : string) : Eff Setter unit :=
  match assignees (formData st) with
  | None => throw TypeError
  | Some selected =>
      set (setFormData (with_assignees
             (List.filter (λ a, negb (String.eqb (a_id a) assigneeId)) selected)
             (formData st)))
  end.
End Handlers.

End ManagerTemplate.

(** ** The task modal (TaskModal component) *)

Module TaskModal.

(** The form of the modal always holds an array under [assignees]: every
    write stores [task.assignees || []], [[]] or the result of an array
    operation. *)
Record FormData := {
  form_assignees : list Assignee;
  form_props : gmap string value
}.

(** Numbers of the completion form.  [hours] holds what the hours field
    stores (line 358), [parseFloat(e.target.value) || 0]: a Number.
    [minutes] holds what the minutes field stores (line 374),
    [parseInt(e.target.value) || 0]: a whole Number.  Both start as [0]. *)
Record CompletionData := {
  hours : Number.number;
  minutes : Number.whole;
  notes : string
}.

Record State := {
  formData : FormData;
  assigneeOptions : list Assignee;
  completionData : CompletionData
}.

Inductive Setter :=
| setFormData (updater : FormData → FormData)
| setAssigneeOptions (l : list Assignee)
| setCompletionData (c : CompletionData).

Definition apply_setter (st : State) (call : Setter) : State :=
  let '(Build_State fd ao cd) := st in
  match call with
  | setFormData f => Build_State (f fd) ao cd
  | setAssigneeOptions x => Build_State fd x cd
  | setCompletionData x => Build_State fd ao x
  end.

Fixpoint run_event (st : State) (ev : Event Setter) : State :=
  match ev with
  | SetState call => apply_setter st call
  | Fork task =>
      (fix go (st : State) (l : list (Event Setter)) : State :=
         match l with
         | [] => st
         | e :: rest => go (run_event st e) rest
         end) st task
  | _ => st
  end.

Definition run (st : State) (tr : list (Event Setter)) : State :=
  foldl run_event st tr.

Definition set (call : Setter) : Eff Setter unit := emit (SetState call).

(** The entry [handleAssigneeSelect] builds from the chosen option. *)
Definition assigneeEntry (assignee : Assignee) : Assignee :=
  {| a_id := a_id assignee;
     a_name := a_name assignee;
     a_type := a_type assignee;
     a_client_id := if is_client assignee then Str (a_id assignee) else Null;
     a_employee_id := if is_employee assignee then Str (a_id assignee) else Null |}.

(** [[...prev.assignees.filter(a => a.id !== assignee.id), { ... }]] *)
Definition selectedAfter (prevAssignees : list Assignee) (assignee : Assignee)
  : list Assignee :=
  List.filter (λ a, negb (String.eqb (a_id a) (a_id assignee))) prevAssignees
    ++ [assigneeEntry assignee].

Definition handleAssigneeSelect (assignee : Assignee) : Eff Setter unit :=
  set (setFormData (λ prev,
         {| form_assignees := selectedAfter (form_assignees prev) assignee;
            form_props := form_props prev |}));;
  set (setAssigneeOptions []).

Definition handleRemoveAssignee (assigneeId : string) : Eff Setter unit :=
  set (setFormData (λ prev,
         {| form_assignees :=
              List.filter (λ a, negb (String.eqb (a_id a) assigneeId)) (form_assignees prev);
            form_props := form_props prev |})).

(** The first four lines of [handleComplete] (282-285): the pair
    [(hours, totalMinutes)]. *)
Definition decompose (c : CompletionData) : Number.whole * Number.whole :=
  let totalHours := Number.or_zero (Number.parseFloat (hours c)) in
  let hours := Number.Math_floor totalHours in
  let minutesFromHours :=
    Number.Math_round
      (Number.mul (Number.sub totalHours (Number.of_whole hours)) (Number.of_Z 60)) in
  let totalMinutes :=
    Number.whole_add minutesFromHours
                     (Number.or_zero_whole (Number.parseInt (minutes c))) in
  (hours, totalMinutes).

(** A whole Number in a request body: [JSON.stringify] writes [NaN] and the
    infinities as [null]. *)
Definition json (w : Number.whole) : value :=
  match w with
  | Number.Int z => VNum z
  | _ => VNull
  end.

(** [task.assignees?.find(a => a.type === 'client')?.client_id || ''] *)
Definition clientIdOf (task : Template) : string :=
  match TemplatePage.clientAssignee task with
  | Some a => match a_client_id a with Str s => s | _ => "" end
  | None => ""
  end.

Definition optional_prop (key : string) (v : option value) (m : gmap string value)
  : gmap string value :=
  match v with
  | Some x => <[key := x]> m
  | None => m
  end.

(** The timesheet entry; [today] is [new Date().toISOString().split('T')[0]]. *)
Definition timesheetEntry (today : string) (task : Template) (c : CompletionData)
  : Template :=
  let '(hours, totalMinutes) := decompose c in
  {| assignees := None;
     props := optional_prop "item" (props task !! "_id")
       (list_to_map
          [ ("date", VStr today);
            ("client_id", VStr (clientIdOf task));
            ("hours", json hours);
            ("minutes", json totalMinutes);
            ("type", VStr "task");
            ("description", VStr ("Completed task: " +:+ to_string (props task !! "title")));
            ("category", VStr "Task Work") ]) |}.

Section Handlers.
Context (API : ApiEndpoints).

Definition handleAssigneeSearch (st : State) (query : string)
    (tok : result string) (response : result (option (list Assignee)))
  : Eff Setter unit :=
  if (2 <=? String.length query)%nat then
    try_catch
      (set (setAssigneeOptions []);;
       token ← await GetAccessToken tok;
       data ← await (AxiosGet (TASKS API +:+ "/search_assignees?query=" +:+ query) token)
                    response;
       match data with
       | Some found =>
           let newOptions :=
             List.filter
               (λ option, negb (existsb (λ existing, String.eqb (a_id existing) (a_id option))
                                        (form_assignees (formData st))))
               found in
           set (setAssigneeOptions newOptions)
       | None => mret tt
       end)
      (λ error,
         emit (ConsoleError "Error searching assignees:");;
         set (setAssigneeOptions []))
  else set (setAssigneeOptions []).

Definition handleComplete (st : State) (today : string) (task : Template)
    (tok : result string) (posted updated : result Template) : Eff Setter unit :=
  try_catch
    (token ← await GetAccessToken tok;
     await (AxiosPost (TIMESHEET_ENTRIES API)
                      (timesheetEntry today task (completionData st)) token) posted;;
     await (AxiosPut (TASKS API +:+ "/" +:+ to_string (props task !! "_id"))
                     (with_prop "completion_notes" (VStr (notes (completionData st)))
                        (with_prop "status" (VStr "complete") task))
                     token) updated;;
     emit (ConsoleLog "Task completed and timesheet entry created");;
     emit (CallProp "onSubmit" (Some (with_prop "status" (VStr "complete") task)));;
     emit (CallProp "onClose" None))
    (λ error, emit (ConsoleError "Error completing task:")).
End Handlers.

(** The [visible_to] list that the updater of [handleGroupVisibilityChange]
    stores (lines 270-277):
    [prev.visible_to.includes(group) ? prev.visible_to.filter(g => g !== group)
                                     : [...prev.visible_to, group]]. *)
Definition handleGroupVisibilityChange (visible_to : list string) (group : string)
  : list string :=
  if existsb (String.eqb group) visible_to
  then List.filter (λ g, negb (String.eqb g group)) visible_to
  else visible_to ++ [group].

End TaskModal.

(** ** Vocabulary of the statements *)

Definition in_group (key : string) (t : Template) : bool :=
  bool_decide (TemplatePage.groupKey t = key).

(** What a group holds once [l] has been pushed onto what it held. *)
Definition pushed (held : option (list Template)) (l : list Template)
  : option (list Template) :=
  match l with
  | [] => held
  | _ => Some (default [] held ++ l)
  end.

(** The templates of all groups, group after group. *)
Definition members (groups : gmap string (list Template)) : list Template :=
  concat (snd <$> map_to_list groups).

(** No own property of [groups] hides a property of the prototype. *)
Definition plain (groups : gmap string (list Template)) : Prop :=
  ∀ key, inherited key = true → groups !! key = None.

(** The bodies of the POST and PUT requests of a trace, forked tasks
    included, in order. *)
Definition post_requests {C} (tr : list (Event C)) : list (string * Template) :=
  flat_map (λ ev, match ev with AxiosPost url body _ => [(url, body)] | _ => [] end)
           (flatten tr).

Definition put_requests {C} (tr : list (Event C)) : list (string * Template) :=
  flat_map (λ ev, match ev with AxiosPut url body _ => [(url, body)] | _ => [] end)
           (flatten tr).

Definition is_toast {C} (ev : Event C) : bool :=
  match ev with ToastError _ => true | _ => false end.

Definition is_console_error {C} (ev : Event C) : bool :=
  match ev with ConsoleError _ => true | _ => false end.

Definition is_request {C} (ev : Event C) : bool :=
  match ev with
  | AxiosGet _ _ | AxiosPost _ _ _ | AxiosPut _ _ _ | AxiosDelete _ _ => true
  | _ => false
  end.

Definition resolved {A} (r : result A) : Prop := ∃ a, r = Ok a.

(** The mutating operations of the template page, and what their promises
    settle to: the answer to [window.confirm], the token, the [i]-th
    mutation request, and what the refetch meets. *)
Inductive Operation :=
| Submit
| ToggleActive (templateId currentStatus : option value)
| Duplicate (template : Template)
| Delete (templateId : option value)
| BulkCopy (newClient : Assignee)
| DeleteGroup (templates : list Template).

Record Settled := {
  confirmed : bool;
  token : result string;
  mutations : nat → result Template;
  refetch : Refetch
}.

Definition perform (API : ApiEndpoints) (st : TemplatePage.State) (op : Operation)
    (w : Settled) : Eff TemplatePage.Setter unit :=
  match op with
  | Submit => TemplatePage.handleSubmit API st (token w) (mutations w 0%nat) (refetch w)
  | ToggleActive templateId currentStatus =>
      TemplatePage.handleToggleActive API st templateId currentStatus
        (token w) (mutations w 0%nat) (refetch w)
  | Duplicate template =>
      TemplatePage.handleDuplicate API st template (token w) (mutations w 0%nat) (refetch w)
  | Delete templateId =>
      TemplatePage.handleDelete API st templateId (confirmed w)
        (token w) (mutations w 0%nat) (refetch w)
  | BulkCopy newClient =>
      TemplatePage.handleBulkCopy API st newClient (token w) (mutations w) (refetch w)
  | DeleteGroup templates =>
      TemplatePage.handleDeleteGroup API st templates (confirmed w)
        (token w) (mutations w) (refetch w)
  end.

(** The operation goes through: it is let past its guard (the admin check
    of the form, the confirmation of a delete, a selection to copy), and
    the token and every mutation request resolve. *)
Definition let_past (st : TemplatePage.State) (op : Operation) (w : Settled) : Prop :=
  match op with
  | Submit => TemplatePage.isAdmin st = true
  | Delete _ | DeleteGroup _ => confirmed w = true
  | BulkCopy _ => TemplatePage.selectedClientTemplates st ≠ None
  | ToggleActive _ _ | Duplicate _ => True
  end.

Definition goes_through (st : TemplatePage.State) (op : Operation) (w : Settled) : Prop :=
  resolved (token w) ∧ (∀ i, resolved (mutations w i)) ∧ let_past st op w.

(** The number of mutation requests an operation that goes through makes. *)
Definition requests_of (st : TemplatePage.State) (op : Operation) : nat :=
  match op with
  | BulkCopy _ => length (default [] (TemplatePage.selectedClientTemplates st))
  | DeleteGroup templates => length templates
  | _ => 1
  end.

(** [fetch] is forked in [tr] after every mutation request of [tr], of
    which there are [n]. *)
Definition refetch_follows {C} (n : nat) (fetch tr : list (Event C)) : Prop :=
  ∃ before after,
    tr = before ++ Fork fetch :: after
    ∧ length (List.filter is_mutation before) = n
    ∧ Forall (λ ev, is_mutation ev = false) (flatten (Fork fetch :: after)).

(** The data the [templates] state is assigned by an event, and in a
    trace. *)
Definition assigned_by (ev : Event TemplatePage.Setter) : list (list Template) :=
  match ev with
  | SetState (TemplatePage.setTemplates data) => [data]
  | _ => []
  end.

Definition templates_assigned (tr : list (Event TemplatePage.Setter))
  : list (list Template) :=
  flat_map assigned_by (flatten tr).

(** Sample data. *)
Definition acme : Assignee :=
  {| a_id := "c1"; a_name := "Acme"; a_type := "client";
     a_client_id := Undefined; a_employee_id := Undefined |}.

Definition beta : Assignee :=
  {| a_id := "c2"; a_name := "Beta"; a_type := "client";
     a_client_id := Undefined; a_employee_id := Undefined |}.

Definition dana : Assignee :=
  {| a_id := "e1"; a_name := "Dana"; a_type := "employee";
     a_client_id := Undefined; a_employee_id := Undefined |}.

Definition sample_template (id : string) (active : bool) (l : list Assignee) : Template :=
  {| assignees := Some l;
     props := list_to_map [ ("_id", VStr id); ("title", VStr "Report");
                            ("is_active", VBool active) ] |}.

Definition sample_api : ApiEndpoints :=
  {| TASK_TEMPLATES := "/api/task-templates"; TASKS := "/api/tasks";
     TIMESHEET_ENTRIES := "/api/timesheet/entries" |}.

Definition sample_refetch (data : list Template) : Refetch :=
  {| refetch_token := Ok "token"; refetch_response := Ok data |}.

(** A page showing two Acme templates, the Acme group expanded. *)
Definition acme_one : Template := sample_template "t1" true [dana; acme].
Definition acme_two : Template := sample_template "t2" true [acme].
Definition beta_one : Template := sample_template "t3" true [beta].

Definition acme_page : TemplatePage.State :=
  {| TemplatePage.templates := [acme_one; acme_two];
     TemplatePage.isOpen := false;
     TemplatePage.searchQuery := "";
     TemplatePage.searchResults := [];
     TemplatePage.selectedAssignees := [];
     TemplatePage.editingTemplate := None;
     TemplatePage.expandedGroups := {[ "Acme" := true ]};
     TemplatePage.isAdmin := true;
     TemplatePage.formData := TemplatePage.initialFormData;
     TemplatePage.isBulkCopyModalOpen := false;
     TemplatePage.selectedClientTemplates := Some [acme_one; acme_two];
     TemplatePage.newClientSearchQuery := "";
     TemplatePage.newClientSearchResults := [] |}.

(** Two switches of that page are flipped one after the other, so both
    handlers are closures of the same render.  Meanwhile a template of a
    new client, Beta, has appeared on the server.  The refetch of the first
    handler brings the Beta group in, collapsed; the user expands it; then
    the refetch of the second handler is answered. *)
Definition first_toggle : Eff TemplatePage.Setter unit :=
  TemplatePage.handleToggleActive sample_api acme_page
    (Some (VStr "t1")) (Some (VBool true)) (Ok "token")
    (Ok (sample_template "t1" false [dana; acme]))
    (sample_refetch [sample_template "t1" false [dana; acme]; acme_two; beta_one]).

Definition second_toggle : Eff TemplatePage.Setter unit :=
  TemplatePage.handleToggleActive sample_api acme_page
    (Some (VStr "t2")) (Some (VBool true)) (Ok "token")
    (Ok (sample_template "t2" false [acme]))
    (sample_refetch [sample_template "t1" false [dana; acme];
                     sample_template "t2" false [acme]; beta_one]).

Definition after_first_refetch : TemplatePage.State :=
  TemplatePage.run acme_page (trace first_toggle).

Definition after_expanding_beta : TemplatePage.State :=
  TemplatePage.run after_first_refetch (trace (TemplatePage.toggleGroup "Beta")).

Definition after_second_refetch : TemplatePage.State :=
  TemplatePage.run after_expanding_beta (trace second_toggle).

(** A task modal whose form holds Acme and Dana as stored by an earlier
    selection. *)
Definition modal_two : TaskModal.State :=
  {| TaskModal.formData :=
       {| TaskModal.form_assignees :=
            [TaskModal.assigneeEntry acme; TaskModal.assigneeEntry dana];
          TaskModal.form_props := ∅ |};
     TaskModal.assigneeOptions := [acme];
     TaskModal.completionData :=
       {| TaskModal.hours := Number.of_Z 0;
          TaskModal.minutes := Number.Int 0;
          TaskModal.notes := "" |} |}.

Definition manager_page : ManagerTemplate.State :=
  {| ManagerTemplate.templates := [acme_one; acme_two];
     ManagerTemplate.isOpen := true;
     ManagerTemplate.formData := TemplatePage.initialFormData;
     ManagerTemplate.searchResults := [];
     ManagerTemplate.searchQuery := "" |}.

(** The list of ids of a selection. *)
Definition ids (l : list Assignee) : list string := a_id <$> l.

(** Every promise resolves, every dialog is confirmed. *)
Definition all_resolved (data : list Template) : Settled :=
  {| confirmed := true;
     token := Ok "token";
     mutations := λ _, Ok empty_object;
     refetch := sample_refetch data |}.

(** The operation is stopped at its guard: the form by the admin check, a
    delete by the dialog. *)
Definition refused (st : TemplatePage.State) (op : Operation) (w : Settled) : Prop :=
  match op with
  | Submit => TemplatePage.isAdmin st = false
  | Delete _ | DeleteGroup _ => confirmed w = false
  | ToggleActive _ _ | Duplicate _ | BulkCopy _ => False
  end.

(** An event that changes no state, in no task. *)
Definition inert {C} (ev : Event C) : Prop :=
  match ev with
  | SetState _ | Fork _ => False
  | _ => True
  end.

(** The form and the selection of the template page hold the same list. *)
Definition form_in_sync (st : TemplatePage.State) : Prop :=
  assignees (TemplatePage.formData st) = Some (TemplatePage.selectedAssignees st).

(** The props the task modal is called back with, in order. *)
Definition prop_calls {C} (tr : list (Event C)) : list string :=
  flat_map (λ ev, match ev with CallProp name _ => [name] | _ => [] end) (flatten tr).

Definition rejected : result Template := Throw (AxiosError None).

(** The Number a decimal text [n / 10^k] is read as ([n] below [2^53], [k]
    at most 22): both integers are Numbers, and their quotient is rounded
    once. *)
Definition decimal (n k : Z) : Number.number :=
  SFdiv 53 1024 (Number.of_Z n) (Number.of_Z (10 ^ k)).

(** The Number [k / 2]: the values the hours field steps through. *)
Definition half (k : Z) : Number.number := binary_normalize 53 1024 k (-1) false.




(** [q * 2^n] on mantissas. *)
Definition shl (q : positive) (n : nat) : positive := Nat.iter n xO q.

(** [z * 2^e] fits the format: 53 bits, exponent in range. *)
Definition fits (z e : Z) : Prop := Z.abs z < 2 ^ 53 ∧ -1074 ≤ e ≤ 971.

(** A completion state with the given numbers. *)
Definition completing (h : Number.number) (m : Number.whole) : TaskModal.State :=
  {| TaskModal.formData := {| TaskModal.form_assignees := []; TaskModal.form_props := ∅ |};
     TaskModal.assigneeOptions := [];
     TaskModal.completionData :=
       {| TaskModal.hours := h; TaskModal.minutes := m; TaskModal.notes := "" |} |}.

(** * Properties *)

(** ** Grouping *)

Section Grouping.
Import TemplatePage.

Lemma group_step_plain groups t :
  inherited (groupKey t) = false →
  group_step groups t
  = Ok (<[groupKey t := default [] (groups !! groupKey t) ++ [t]]> groups).
Proof.
  intros Hk. unfold group_step, get. rewrite Hk.
  destruct (groups !! groupKey t); reflexivity.
Qed.

Lemma group_step_inherited groups t :
  plain groups → inherited (groupKey t) = true →
  group_step groups t = Throw TypeError.
Proof.
  intros Hp Hk. unfold group_step, get. rewrite (Hp _ Hk), Hk. reflexivity.
Qed.

Lemma plain_insert groups key l :
  plain groups → inherited key = false → plain (<[key := l]> groups).
Proof.
  intros Hp Hk k Hi. rewrite lookup_insert_ne; [by apply Hp | congruence].
Qed.

Lemma reduce_groups_lookup templates : ∀ groups,
  Forall (λ t, inherited (groupKey t) = false) templates →
  ∃ groups', reduce_groups groups templates = Ok groups'
    ∧ ∀ key, groups' !! key = pushed (groups !! key) (List.filter (in_group key) templates).
Proof.
  induction templates as [|t rest IH]; intros groups Hall.
  - exists groups. split; [reflexivity | intros key; reflexivity].
  - inversion Hall as [|? ? Ht Hrest]; subst.
    cbn [reduce_groups]. rewrite (group_step_plain _ _ Ht).
    destruct (IH (<[groupKey t := default [] (groups !! groupKey t) ++ [t]]> groups) Hrest)
      as (g' & Hred & Hlook).
    exists g'. split; [exact Hred |].
    intros key. rewrite Hlook. cbn [List.filter]. unfold in_group at 2.
    case_bool_decide as Hkey.
    + subst key. rewrite lookup_insert_eq.
      destruct (List.filter (in_group (groupKey t)) rest) as [|x l]; cbn.
      * reflexivity.
      * by rewrite <- app_assoc.
    + by rewrite lookup_insert_ne.
Qed.

Lemma members_push groups key t :
  members (<[key := default [] (groups !! key) ++ [t]]> groups) ≡ₚ t :: members groups.
Proof.
  unfold members. destruct (groups !! key) as [arr|] eqn:Hk; cbn [default].
  - rewrite <- insert_delete_eq.
    rewrite map_to_list_insert by apply lookup_delete_eq.
    rewrite <- (map_to_list_delete groups key arr Hk).
    cbn. rewrite <- app_assoc. cbn.
    symmetry. apply Permutation_middle.
  - rewrite map_to_list_insert by exact Hk. reflexivity.
Qed.
Lemma reduce_groups_members templates : ∀ groups groups',
  reduce_groups groups templates = Ok groups' →
  members groups' ≡ₚ members groups ++ templates.
Proof.
  induction templates as [|t rest IH]; intros groups groups' Hred.
  - cbn in Hred. injection Hred as <-. by rewrite app_nil_r.
  - cbn [reduce_groups] in Hred.
    destruct (group_step groups t) as [g1|e] eqn:Hstep; [|discriminate].
    rewrite (IH _ _ Hred).
    assert (members g1 ≡ₚ t :: members groups) as ->.
    { unfold group_step, get in Hstep.
      destruct (groups !! groupKey t) as [arr|] eqn:Hk.
      - injection Hstep as <-.
        pose proof (members_push groups (groupKey t) t) as Hp.
        by rewrite Hk in Hp.
      - destruct (inherited (groupKey t)); [discriminate|].
        injection Hstep as <-.
        pose proof (members_push groups (groupKey t) t) as Hp.
        by rewrite Hk in Hp. }
    cbn. by rewrite Permutation_middle.
Qed.

Lemma reduce_groups_throws templates : ∀ groups,
  plain groups →
  Exists (λ t, inherited (groupKey t) = true) templates →
  reduce_groups groups templates = Throw TypeError.
Proof.
  induction templates as [|t rest IH]; intros groups Hp Hex.
  - inversion Hex.
  - cbn [reduce_groups].
    destruct (inherited (groupKey t)) eqn:Hk.
    + by rewrite (group_step_inherited _ _ Hp Hk).
    + rewrite (group_step_plain _ _ Hk). apply IH.
      * by apply plain_insert.
      * inversion Hex as [? ? Hhd|? ? Htl]; subst; [congruence | exact Htl].
Qed.

(** X2.  A single template whose client is named like a property of
    [Object.prototype] makes the whole grouping end in a [TypeError],
    wherever it stands in the list and whatever the other templates are. *)
Lemma groupedTemplates_throws templates :
  Exists (λ t, inherited (groupKey t) = true) templates →
  groupedTemplates templates = Throw TypeError.
Proof. apply reduce_groups_throws. intros key _. apply lookup_empty. Qed.

(** X1.  Away from the property names of [Object.prototype], grouping is a
    partition by [groupKey]: the group of a key holds, in input order,
    exactly the templates with that key, there is no empty group, and the
    groups together hold the input. *)
Theorem groupedTemplates_partition (templates : list Template) :
  Forall (λ t, inherited (groupKey t) = false) templates →
  ∃ groups,
    groupedTemplates templates = Ok groups
    ∧ (∀ key, groups !! key = pushed None (List.filter (in_group key) templates))
    ∧ (∀ t, t ∈ templates →
         ∃ l, groups !! groupKey t = Some l ∧ t ∈ l
              ∧ ∀ key' l', groups !! key' = Some l' → t ∈ l' → key' = groupKey t)
    ∧ members groups ≡ₚ templates.
Proof.
  intros Hall.
  destruct (reduce_groups_lookup templates ∅ Hall) as (groups & Hred & Hlook).
  exists groups. split; [exact Hred|].
  assert (Hspec : ∀ key, groups !! key
                         = pushed None (List.filter (in_group key) templates)).
  { intros key. by rewrite Hlook, lookup_empty. }
  split; [exact Hspec|]. split.
  - intros t Ht.
    assert (Hin : t ∈ List.filter (in_group (groupKey t)) templates).
    { apply list_elem_of_In, filter_In. split; [by apply list_elem_of_In|].
      unfold in_group. by apply bool_decide_eq_true. }
    pose proof (Hspec (groupKey t)) as Hg.
    destruct (List.filter (in_group (groupKey t)) templates) as [|x l] eqn:Hf.
    { by apply not_elem_of_nil in Hin. }
    exists (x :: l). split; [exact Hg|]. split; [exact Hin|].
    intros key' l' Hg' Hin'. rewrite Hspec in Hg'.
    destruct (List.filter (in_group key') templates) as [|y l''] eqn:Hf'; [discriminate|].
    cbn in Hg'. injection Hg' as <-.
    rewrite <- Hf' in Hin'. apply list_elem_of_In, filter_In in Hin' as [_ Hk].
    unfold in_group in Hk. apply bool_decide_eq_true in Hk. by symmetry.
  - pose proof (reduce_groups_members templates ∅ groups Hred) as Hm.
    rewrite Hm. unfold members. by rewrite map_to_list_empty.
Qed.

(** The example of the specification: an Acme template and one without
    assignees. *)
Example groupedTemplates_example :
  let one := {| assignees := Some [acme]; props := {[ "id" := VNum 1 ]} |} in
  let two := {| assignees := Some []; props := {[ "id" := VNum 2 ]} |} in
  groupedTemplates [one; two]
  = Ok (<["Acme" := [one]]> (<["unassigned" := [two]]> ∅)).
Proof. reflexivity. Qed.

(** C1 (the code departs from the claim).  A template whose client is
    named like a property of [Object.prototype] is put into no group:
    [groups["constructor"]] is the inherited function, nothing is assigned,
    [push] is not a method of it, and the reduction ends in a [TypeError]
    although the input is a well-formed list of one template. *)
Theorem groupedTemplates_prototype_key_throws :
  let client := {| a_id := "c1"; a_name := "constructor"; a_type := "client";
                   a_client_id := Undefined; a_employee_id := Undefined |} in
  let template := {| assignees := Some [client]; props := {[ "_id" := VStr "t1" ]} |} in
  groupKey template = "constructor"
  ∧ groupedTemplates [template] = Throw TypeError.
Proof. split; reflexivity. Qed.
End Grouping.

(** ** Traces *)

Section Traces.
Context {C : Type}.

Lemma map_indexed_spec {A B} (f : nat → A → Eff C B) (g : nat → A → B) (l : list A) :
  ∀ n, (∀ i x, outcome (f i x) = Ok (g i x)) →
  trace (map_indexed f n l) = concat (imap (λ i x, trace (f (n + i)%nat x)) l)
  ∧ outcome (map_indexed f n l) = Ok (imap (λ i x, g (n + i)%nat x) l).
Proof.
  induction l as [|x rest IH]; intros n Hf; [by split|].
  destruct (IH (n + 1)%nat Hf) as [IHt IHo].
  cbn [map_indexed]. unfold mbind, eff_bind. cbn [trace outcome].
  rewrite Hf. cbn [trace outcome mret eff_ret]. rewrite IHo. cbn [trace outcome].
  rewrite IHt, app_nil_r. cbn [imap concat]. rewrite Nat.add_0_r.
  split.
  - f_equal. f_equal. apply imap_ext. intros i y _. cbn.
    by replace (n + 1 + i)%nat with (n + Datatypes.S i)%nat by lia.
  - f_equal. f_equal. apply imap_ext. intros i y _. cbn.
    by replace (n + 1 + i)%nat with (n + Datatypes.S i)%nat by lia.
Qed.

Lemma promise_all_resolved {A} (promises : list (result A)) :
  Forall resolved promises →
  trace (promise_all (C:=C) promises) = []
  ∧ ∃ l, outcome (promise_all (C:=C) promises) = Ok l.
Proof.
  induction 1 as [|r rest [a ->] _ [IHt [l IHo]]]; cbn.
  - split; [reflexivity | by eexists].
  - unfold mbind, eff_bind. rewrite IHo. cbn. rewrite IHt. split; [reflexivity | by eexists].
Qed.

Lemma promise_all_silent {A} (promises : list (result A)) :
  trace (promise_all (C:=C) promises) = [].
Proof.
  induction promises as [|[a|e] rest IH]; cbn; try reflexivity.
  unfold mbind, eff_bind. destruct (outcome (promise_all rest)); cbn; by rewrite IH.
Qed.

Lemma flatten_app (l1 l2 : list (Event C)) : flatten (l1 ++ l2) = flatten l1 ++ flatten l2.
Proof. unfold flatten. apply flat_map_app. Qed.

Lemma flatten_fork (task rest : list (Event C)) :
  flatten (Fork task :: rest) = flatten task ++ flatten rest.
Proof.
  unfold flatten. cbn [flat_map]. f_equal.
Qed.
End Traces.

(** ** Bulk copy *)

Section BulkCopy.
Import TemplatePage.
Context (API : ApiEndpoints).

Lemma newTemplate_lookup (newClient : Assignee) (template : Template) (key : string) :
  props (newTemplate newClient template) !! key
  = if decide (key = "_id") then None else props template !! key.
Proof.
  unfold newTemplate, with_assignees, without_prop. cbn [props].
  case_decide as Hk.
  - subst. apply lookup_delete_eq.
  - by apply lookup_delete_ne.
Qed.

Lemma post_requests_app {C} (l1 l2 : list (Event C)) :
  post_requests (l1 ++ l2) = post_requests l1 ++ post_requests l2.
Proof. unfold post_requests. by rewrite flatten_app, flat_map_app. Qed.

Lemma post_requests_fork_last {C} (sets task : list (Event C)) :
  post_requests sets = [] →
  post_requests (sets ++ [Fork task]) = post_requests task.
Proof.
  intros Hsets. rewrite post_requests_app, Hsets. unfold post_requests.
  by rewrite flatten_fork, flat_map_app, app_nil_r.
Qed.

Lemma fetchTemplates_no_post (st : State) (io : Refetch) :
  post_requests (trace (fetchTemplates API st io)) = [].
Proof.
  unfold fetchTemplates.
  destruct io as [[tk|e] [data|e']]; reflexivity.
Qed.

Lemma copy_posts (newClient : Assignee) (tk : string) (mutations : nat → result Template)
    (selected : list Template) : ∀ n,
  post_requests
    (trace (map_indexed (C:=Setter) (λ i template,
       emit (ConsoleLog "Original template assignees:");;
       emit (ConsoleLog "Filtered employee assignees:");;
       emit (ConsoleLog "New template to create:");;
       request (AxiosPost (TASK_TEMPLATES API) (newTemplate newClient template) tk)
               (mutations i)) n selected))
  = (λ template, (TASK_TEMPLATES API, newTemplate newClient template)) <$> selected.
Proof.
  induction selected as [|t rest IH]; intros n; [reflexivity|].
  cbn [map_indexed]. specialize (IH (n + 1)%nat).
  unfold mbind, eff_bind in *. cbn in *.
  match goal with |- context [outcome ?m] => destruct (outcome m) end;
    cbn; rewrite ?app_nil_r; f_equal; exact IH.
Qed.

Lemma copy_outcome (newClient : Assignee) (tk : string) (mutations : nat → result Template)
    (selected : list Template) : ∀ n,
  outcome
    (map_indexed (C:=Setter) (λ i template,
       emit (ConsoleLog "Original template assignees:");;
       emit (ConsoleLog "Filtered employee assignees:");;
       emit (ConsoleLog "New template to create:");;
       request (AxiosPost (TASK_TEMPLATES API) (newTemplate newClient template) tk)
               (mutations i)) n selected)
  = Ok (imap (λ i _, mutations (n + i)%nat) selected).
Proof.
  intros n.
  apply (map_indexed_spec _ (λ i _, mutations i)). intros i x. reflexivity.
Qed.

(** C6.  The bulk copy posts, for each selected template in order, that
    template without its [_id] and with its assignee list replaced by its
    employee assignees, in order, followed by the one client assignee built
    from the chosen client; every other property is the source's.  The
    requests are all made before any is awaited, so there is one per source
    template whatever the server answers. *)
Theorem bulk_copy_transformation (st : State) (newClient : Assignee) (tk : string)
    (mutations : nat → result Template) (io : Refetch) (selected : list Template) :
  selectedClientTemplates st = Some selected →
  let created := post_requests (trace (handleBulkCopy API st newClient (Ok tk) mutations io)) in
  created = (λ template, (TASK_TEMPLATES API, newTemplate newClient template)) <$> selected
  ∧ length created = length selected
  ∧ ∀ template,
      assignees (newTemplate newClient template)
      = Some (List.filter is_employee (default [] (assignees template))
              ++ [ {| a_id := a_id newClient; a_name := a_name newClient;
                      a_type := "client";
                      a_client_id := Undefined; a_employee_id := Undefined |} ])
      ∧ props (newTemplate newClient template) !! "_id" = None
      ∧ ∀ key, key ≠ "_id" →
               props (newTemplate newClient template) !! key = props template !! key.
Proof.
  intros Hsel created.
  assert (Hcreated : created
            = (λ template, (TASK_TEMPLATES API, newTemplate newClient template)) <$> selected).
  { subst created. unfold handleBulkCopy. rewrite Hsel.
    pose proof (copy_posts newClient tk mutations selected 0) as Hposts.
    pose proof (copy_outcome newClient tk mutations selected 0) as Hout.
    unfold try_catch, mbind, eff_bind in *. cbn in *.
    rewrite Hout. cbn.
    pose proof (promise_all_silent (C:=Setter)
                  (imap (λ i _, mutations i) selected)) as Hsilent.
    destruct (outcome (promise_all (imap (λ i _, mutations i) selected))) eqn:Hall;
      cbn; rewrite Hsilent, ?app_nil_r;
      match goal with
      | |- flat_map _ (flat_map flatten_event (?T ++ ?L)) = _ =>
          change (post_requests (T ++ L) = (λ template,
                    (TASK_TEMPLATES API, newTemplate newClient template)) <$> selected)
      end;
      rewrite post_requests_app, Hposts.
    - cbn [app].
      match goal with
      | |- context [post_requests [?a; ?b; ?c; ?d; Fork ?t]] =>
          change (post_requests [a; b; c; d; Fork t])
            with (post_requests ([a; b; c; d] ++ [Fork t]))
      end.
      rewrite post_requests_fork_last by reflexivity.
      by rewrite fetchTemplates_no_post, app_nil_r.
    - by rewrite app_nil_r. }
  split; [exact Hcreated|]. split; [by rewrite Hcreated, length_fmap|].
  intros template. split; [|split].
  - unfold newTemplate, with_assignees. cbn [assignees].
    by destruct (assignees template).
  - rewrite newTemplate_lookup. by case_decide.
  - intros key Hkey. rewrite newTemplate_lookup. by case_decide.
Qed.
End BulkCopy.

(** The two Acme templates of the sample page copied to Beta. *)
Lemma bulk_copy_transformation_witness :
  TemplatePage.selectedClientTemplates acme_page = Some [acme_one; acme_two]
  ∧ post_requests (trace (TemplatePage.handleBulkCopy sample_api acme_page beta (Ok "token")
                            (λ _, Ok empty_object) (sample_refetch [])))
    = [ ("/api/task-templates", TemplatePage.newTemplate beta acme_one);
        ("/api/task-templates", TemplatePage.newTemplate beta acme_two) ]
  ∧ assignees (TemplatePage.newTemplate beta acme_one) = Some [dana; beta]
  ∧ props (TemplatePage.newTemplate beta acme_one) !! "_id" = None
  ∧ props (TemplatePage.newTemplate beta acme_one) !! "title" = Some (VStr "Report").
Proof.
  split; [reflexivity|].
  pose proof (bulk_copy_transformation sample_api acme_page beta "token"
                (λ _, Ok empty_object) (sample_refetch []) [acme_one; acme_two] eq_refl)
    as (Hposts & _ & Hshape).
  split; [exact Hposts|].
  destruct (Hshape acme_one) as (Hassignees & Hid & Hother).
  split; [exact Hassignees|]. split; [exact Hid|].
  rewrite (Hother "title") by discriminate. reflexivity.
Defined.

(** ** Toggle active *)

Section ToggleActive.
Context (API : ApiEndpoints).

Lemma find_by_id (templates : list Template) (t : Template) :
  t ∈ templates →
  NoDup ((λ x, props x !! "_id") <$> templates) →
  List.find (λ x, strict_eq (props x !! "_id") (props t !! "_id")) templates = Some t.
Proof.
  induction templates as [|x rest IH]; intros Hin Hnd.
  - by apply not_elem_of_nil in Hin.
  - cbn [fmap list_fmap] in Hnd. apply NoDup_cons in Hnd as [Hx Hrest].
    cbn [List.find]. unfold strict_eq at 1. case_bool_decide as Heq.
    + apply elem_of_cons in Hin as [->|Hin]; [reflexivity|].
      exfalso. apply Hx. rewrite Heq.
      apply (list_elem_of_fmap_2 (λ x, props x !! "_id")). exact Hin.
    + apply elem_of_cons in Hin as [->|Hin]; [congruence|]. by apply IH.
Qed.

Lemma togglePayload_found (templates : list Template) (t : Template)
    (currentStatus : option value) :
  t ∈ templates →
  NoDup ((λ x, props x !! "_id") <$> templates) →
  TemplatePage.togglePayload templates (props t !! "_id") currentStatus
  = with_prop "is_active" (VBool (negb (truthy currentStatus))) t.
Proof.
  intros Hin Hnd. unfold TemplatePage.togglePayload.
  by rewrite (find_by_id templates t Hin Hnd).
Qed.

(** C7.  For a template of the local list (whose [_id]s are pairwise
    distinct, as identifiers are), the one PUT request of
    [handleToggleActive], in either template component, carries the whole
    local record with [is_active] replaced by the negation of the status
    passed in, which for the switch of the table is the record's own
    [is_active]; the assignees and every property other than [is_active] are
    the record's. *)
Theorem toggle_active_frame (templates : list Template) (t : Template)
    (currentStatus : option value) (tk : string) (mutation : result Template)
    (io : Refetch) (page : TemplatePage.State) (manager : ManagerTemplate.State) :
  t ∈ templates →
  NoDup ((λ x, props x !! "_id") <$> templates) →
  TemplatePage.templates page = templates →
  ManagerTemplate.templates manager = templates →
  let payload := with_prop "is_active" (VBool (negb (truthy currentStatus))) t in
  let url := TASK_TEMPLATES API +:+ "/" +:+ to_string (props t !! "_id") in
  put_requests (trace (TemplatePage.handleToggleActive API page (props t !! "_id")
                         currentStatus (Ok tk) mutation io)) = [(url, payload)]
  ∧ put_requests (trace (ManagerTemplate.handleToggleActive API manager (props t !! "_id")
                           currentStatus (Ok tk) mutation io)) = [(url, payload)]
  ∧ assignees payload = assignees t
  ∧ props payload !! "is_active" = Some (VBool (negb (truthy currentStatus)))
  ∧ ∀ key, key ≠ "is_active" → props payload !! key = props t !! key.
Proof.
  intros Hin Hnd Hpage Hmanager payload url.
  split; [|split; [|split; [|split]]].
  - unfold TemplatePage.handleToggleActive. rewrite Hpage, togglePayload_found by done.
    destruct mutation as [a|e], io as [[tk'|e1] [data|e2]]; reflexivity.
  - unfold ManagerTemplate.handleToggleActive. rewrite Hmanager, togglePayload_found by done.
    destruct mutation as [a|e], io as [[tk'|e1] [data|e2]]; reflexivity.
  - reflexivity.
  - apply lookup_insert_eq.
  - intros key Hkey. by apply lookup_insert_ne.
Qed.
End ToggleActive.

(** The switch of the first template of the sample page. *)
Lemma toggle_active_frame_witness :
  acme_one ∈ [acme_one; acme_two]
  ∧ NoDup ((λ x, props x !! "_id") <$> [acme_one; acme_two])
  ∧ put_requests (trace (TemplatePage.handleToggleActive sample_api acme_page
                           (Some (VStr "t1")) (Some (VBool true)) (Ok "token")
                           (Ok empty_object) (sample_refetch [])))
    = [ ("/api/task-templates/t1", sample_template "t1" false [dana; acme]) ].
Proof.
  assert (Hin : acme_one ∈ [acme_one; acme_two]) by apply list_elem_of_here.
  assert (Hnd : NoDup ((λ x, props x !! "_id") <$> [acme_one; acme_two]))
    by (apply (bool_decide_unpack _); vm_compute; exact I).
  split; [exact Hin|]. split; [exact Hnd|].
  pose proof (toggle_active_frame sample_api [acme_one; acme_two] acme_one
                (Some (VBool true)) "token" (Ok empty_object) (sample_refetch [])
                acme_page manager_page Hin Hnd eq_refl eq_refl) as (Hpage & _).
  exact Hpage.
Defined.

(** ** Refetch after mutation *)

Section Refetching.
Import TemplatePage.
Context (API : ApiEndpoints).

Lemma map_indexed_mutations {A B} (f : nat → A → Eff Setter B) (g : nat → A → B)
    (l : list A) : ∀ n,
  (∀ i x, outcome (f i x) = Ok (g i x)) →
  (∀ i x, length (List.filter is_mutation (trace (f i x))) = 1%nat) →
  length (List.filter is_mutation (trace (map_indexed f n l))) = length l.
Proof.
  induction l as [|x rest IH]; intros n Hout Hone; [reflexivity|].
  destruct (map_indexed_spec f g rest (n + 1)%nat Hout) as [_ Hrest].
  cbn [map_indexed]. unfold mbind, eff_bind. rewrite Hout. cbn [trace outcome].
  rewrite Hrest. cbn [trace outcome mret eff_ret].
  rewrite app_nil_r, List.filter_app, length_app, Hone, (IH _ Hout Hone).
  reflexivity.
Qed.

Lemma map_indexed_flat {A B} (f : nat → A → Eff Setter B) (g : nat → A → B)
    (P : Event Setter → Prop) (l : list A) : ∀ n,
  (∀ i x, outcome (f i x) = Ok (g i x)) →
  (∀ i x, Forall P (flatten (trace (f i x)))) →
  Forall P (flatten (trace (map_indexed f n l))).
Proof.
  induction l as [|x rest IH]; intros n Hout HP; [constructor|].
  destruct (map_indexed_spec f g rest (n + 1)%nat Hout) as [_ Hrest].
  cbn [map_indexed]. unfold mbind, eff_bind. rewrite Hout. cbn [trace outcome].
  rewrite Hrest. cbn [trace outcome mret eff_ret].
  rewrite app_nil_r, flatten_app. apply Forall_app. split; [apply HP | by apply IH].
Qed.

Lemma promise_all_goes {A} (mutations : nat → result A) {X} (l : list X) :
  (∀ i, resolved (mutations i)) →
  ∃ data, outcome (promise_all (C:=Setter) (imap (λ i _, mutations i) l)) = Ok data.
Proof.
  intros Hall. apply promise_all_resolved.
  apply Forall_forall. intros r Hr.
  apply elem_of_lookup_imap in Hr as (i & x & -> & _). apply Hall.
Qed.

Lemma fetchTemplates_quiet (st : State) (io : Refetch) :
  Forall (λ ev, is_mutation ev = false) (flatten (trace (fetchTemplates API st io))).
Proof. destruct io as [[tk|e] [data|e']]; cbn; repeat constructor. Qed.

(** The refetch is a GET of the template list, and the only data it
    stores in [templates] is the body of that response. *)
Lemma fetchTemplates_full (st : State) (io : Refetch) (tk : string) :
  refetch_token io = Ok tk →
  AxiosGet (TASK_TEMPLATES API) tk ∈ trace (fetchTemplates API st io).
Proof.
  destruct io as [tok [data|e']]; cbn; intros ->; cbn; set_solver.
Qed.

Lemma fetchTemplates_assigns (st : State) (io : Refetch) :
  templates_assigned (trace (fetchTemplates API st io))
  = match refetch_token io, refetch_response io with
    | Ok _, Ok data => [data]
    | _, _ => []
    end.
Proof. destruct io as [[tk|e] [data|e']]; reflexivity. Qed.

Lemma refetch_follows_intro {C} (n : nat) (fetch before after : list (Event C)) :
  length (List.filter is_mutation before) = n →
  Forall (λ ev, is_mutation ev = false) (flatten fetch) →
  Forall (λ ev, is_mutation ev = false) (flatten after) →
  refetch_follows n fetch (before ++ Fork fetch :: after).
Proof.
  intros Hn Hfetch Hafter. exists before, after. split; [reflexivity|]. split; [exact Hn|].
  rewrite flatten_fork. by apply Forall_app.
Qed.

Lemma goes_through_follows (st : State) (op : Operation) (w : Settled) :
  goes_through st op w →
  refetch_follows (requests_of st op)
    (trace (fetchTemplates API st (refetch w))) (trace (perform API st op w)).
Proof.
  intros ([tk Htok] & Hmut & Hguard).
  destruct (Hmut 0%nat) as [m0 Hm0].
  destruct op as [|templateId currentStatus|template|templateId|newClient|group];
    cbn [perform requests_of let_past] in *.
  - unfold handleSubmit. rewrite Hguard, Htok, Hm0.
    destruct (editingTemplate st) as [editing|].
    + apply (refetch_follows_intro 1 _ [_; _; _] [_; _; _]);
        [reflexivity | apply fetchTemplates_quiet | repeat constructor].
    + apply (refetch_follows_intro 1 _ [_; _; _] [_; _; _]);
        [reflexivity | apply fetchTemplates_quiet | repeat constructor].
  - unfold handleToggleActive. rewrite Htok, Hm0.
    apply (refetch_follows_intro 1 _ [_; _] []);
      [reflexivity | apply fetchTemplates_quiet | constructor].
  - unfold handleDuplicate. rewrite Htok, Hm0.
    apply (refetch_follows_intro 1 _ [_; _] []);
      [reflexivity | apply fetchTemplates_quiet | constructor].
  - unfold handleDelete. rewrite Hguard, Htok, Hm0.
    apply (refetch_follows_intro 1 _ [_; _; _] []);
      [reflexivity | apply fetchTemplates_quiet | constructor].
  - destruct (selectedClientTemplates st) as [selected|] eqn:Hsel; [|done].
    unfold handleBulkCopy. rewrite Htok, Hsel.
    pose proof (copy_outcome API newClient tk (mutations w) selected 0) as Hout.
    destruct (promise_all_goes (mutations w) selected Hmut) as [data Hall].
    unfold try_catch, mbind, eff_bind in *. cbn in *.
    rewrite Hout. cbn. rewrite Hall. cbn. rewrite promise_all_silent. cbn [app].
    match goal with
    | |- refetch_follows _ ?f (?a :: ?b :: ?c :: ?T ++ [?s1; ?s2; ?s3; ?s4; Fork ?f]) =>
        replace (a :: b :: c :: T ++ [s1; s2; s3; s4; Fork f])
          with ((a :: b :: c :: T ++ [s1; s2; s3; s4]) ++ Fork f :: [])
          by (cbn [app]; by rewrite <- app_assoc)
    end.
    apply refetch_follows_intro; [| apply fetchTemplates_quiet | constructor].
    cbn [List.filter is_mutation]. rewrite List.filter_app, length_app. cbn.
    rewrite Nat.add_0_r.
    apply (map_indexed_mutations _ (λ i _, mutations w i)); intros i x; reflexivity.
  - unfold handleDeleteGroup. rewrite Hguard, Htok.
    destruct (map_indexed_spec (C:=Setter)
                (λ i template,
                   request (AxiosDelete (TASK_TEMPLATES API +:+ "/"
                                           +:+ to_string (props template !! "_id")) tk)
                           (mutations w i))
                (λ i _, mutations w i) group 0) as [_ Hout]; [done|].
    destruct (promise_all_goes (mutations w) group Hmut) as [data Hall].
    unfold try_catch, mbind, eff_bind in *. cbn in *.
    rewrite Hout. cbn. rewrite Hall. cbn. rewrite promise_all_silent. cbn [app].
    match goal with
    | |- refetch_follows _ ?f (?a :: ?b :: ?T ++ [Fork ?f]) =>
        replace (a :: b :: T ++ [Fork f]) with ((a :: b :: T) ++ Fork f :: [])
          by reflexivity
    end.
    apply refetch_follows_intro; [| apply fetchTemplates_quiet | constructor].
    cbn [List.filter is_mutation].
    apply (map_indexed_mutations _ (λ i _, mutations w i)); intros i x; reflexivity.
Qed.

Lemma templates_assigned_app (l1 l2 : list (Event Setter)) :
  templates_assigned (l1 ++ l2) = templates_assigned l1 ++ templates_assigned l2.
Proof. unfold templates_assigned. by rewrite flatten_app, flat_map_app. Qed.

Lemma templates_assigned_fork (task rest : list (Event Setter)) :
  templates_assigned (Fork task :: rest)
  = templates_assigned task ++ templates_assigned rest.
Proof. unfold templates_assigned. by rewrite flatten_fork, flat_map_app. Qed.

Lemma templates_assigned_none (tr : list (Event Setter)) :
  Forall (λ ev, assigned_by ev = []) (flatten tr) → templates_assigned tr = [].
Proof.
  unfold templates_assigned. induction 1 as [|ev rest Hev _ IH]; [reflexivity|].
  cbn [flat_map]. by rewrite Hev, IH.
Qed.

Ltac settle_membership :=
  cbn;
  repeat match goal with
         | |- context [has_response ?e] => destruct (has_response e); cbn
         | |- context [status_is ?c ?e] => destruct (status_is c e); cbn
         end;
  let Hin := fresh "Hin" in
  intros Hin;
  repeat (apply elem_of_cons in Hin as [Hin|Hin]; [by subst|]);
  by apply elem_of_nil in Hin.

Lemma only_fetch_assigns (st : State) (op : Operation) (w : Settled) (data : list Template) :
  data ∈ templates_assigned (trace (perform API st op w)) →
  refetch_response (refetch w) = Ok data.
Proof.
  assert (Hfetch : data ∈ templates_assigned (trace (fetchTemplates API st (refetch w)))
                   → refetch_response (refetch w) = Ok data).
  { destruct (refetch w) as [[tk'|e1] [d|e2]]; settle_membership. }
  destruct op as [|templateId currentStatus|template|templateId|newClient|group];
    cbn [perform].
  - unfold handleSubmit.
    destruct (isAdmin st), (token w), (editingTemplate st), (mutations w 0%nat),
      (refetch w) as [[tk'|e1] [d|e2]]; settle_membership.
  - unfold handleToggleActive.
    destruct (token w), (mutations w 0%nat), (refetch w) as [[tk'|e1] [d|e2]];
      settle_membership.
  - unfold handleDuplicate.
    destruct (token w), (mutations w 0%nat), (refetch w) as [[tk'|e1] [d|e2]];
      settle_membership.
  - unfold handleDelete.
    destruct (confirmed w), (token w), (mutations w 0%nat),
      (refetch w) as [[tk'|e1] [d|e2]]; settle_membership.
  - unfold handleBulkCopy.
    destruct (token w) as [tk|e]; [|settle_membership].
    destruct (selectedClientTemplates st) as [selected|]; [|settle_membership].
    pose proof (copy_outcome API newClient tk (mutations w) selected 0) as Hout.
    pose proof (map_indexed_flat
                  (λ i template,
                     emit (ConsoleLog "Original template assignees:");;
                     emit (ConsoleLog "Filtered employee assignees:");;
                     emit (ConsoleLog "New template to create:");;
                     request (AxiosPost (TASK_TEMPLATES API)
                                (newTemplate newClient template) tk) (mutations w i))
                  (λ i _, mutations w i) (λ ev, assigned_by ev = []) selected 0) as Hnone.
    unfold try_catch, mbind, eff_bind in *. cbn in *.
    rewrite Hout. cbn.
    destruct (outcome (promise_all (imap (λ i _, mutations w i) selected)));
      cbn; rewrite promise_all_silent; cbn [app].
    + match goal with
      | |- _ ∈ flat_map assigned_by (flat_map flatten_event (?T ++ [?s1; ?s2; ?s3; ?s4; Fork ?f])) → _ =>
          change (data ∈ templates_assigned (T ++ [s1; s2; s3; s4] ++ Fork f :: [])
                  → refetch_response (refetch w) = Ok data)
      end.
      rewrite !templates_assigned_app, templates_assigned_fork,
        (templates_assigned_none _ (Hnone ltac:(done) ltac:(intros; repeat constructor))).
      cbn. rewrite app_nil_r. exact Hfetch.
    + rewrite app_nil_r.
      match goal with
      | |- _ ∈ flat_map assigned_by (flat_map flatten_event (?T ++ ?L)) → _ =>
          change (data ∈ templates_assigned (T ++ L)
                  → refetch_response (refetch w) = Ok data)
      end.
      rewrite !templates_assigned_app,
        (templates_assigned_none _ (Hnone ltac:(done) ltac:(intros; repeat constructor))).
      settle_membership.
  - unfold handleDeleteGroup.
    destruct (confirmed w); [|settle_membership].
    destruct (token w) as [tk|e]; [|settle_membership].
    pose proof (map_indexed_spec (C:=Setter)
                  (λ i template,
                     request (AxiosDelete (TASK_TEMPLATES API +:+ "/"
                                             +:+ to_string (props template !! "_id")) tk)
                             (mutations w i))
                  (λ i _, mutations w i) group 0 ltac:(done)) as [_ Hout].
    pose proof (map_indexed_flat
                  (λ i template,
                     request (AxiosDelete (TASK_TEMPLATES API +:+ "/"
                                             +:+ to_string (props template !! "_id")) tk)
                             (mutations w i))
                  (λ i _, mutations w i) (λ ev, assigned_by ev = []) group 0) as Hnone.
    unfold try_catch, mbind, eff_bind in *. cbn in *.
    rewrite Hout. cbn.
    destruct (outcome (promise_all (imap (λ i _, mutations w i) group))) as [a|e];
      cbn; rewrite promise_all_silent; cbn [app].
    + match goal with
      | |- _ ∈ flat_map assigned_by (flat_map flatten_event (?T ++ [Fork ?f])) → _ =>
          change (data ∈ templates_assigned (T ++ Fork f :: [])
                  → refetch_response (refetch w) = Ok data)
      end.
      rewrite !templates_assigned_app, templates_assigned_fork,
        (templates_assigned_none _ (Hnone ltac:(done) ltac:(intros; repeat constructor))).
      cbn. rewrite app_nil_r. exact Hfetch.
    + rewrite app_nil_r.
      match goal with
      | |- _ ∈ flat_map assigned_by (flat_map flatten_event (?T ++ ?L)) → _ =>
          change (data ∈ templates_assigned (T ++ L)
                  → refetch_response (refetch w) = Ok data)
      end.
      rewrite !templates_assigned_app,
        (templates_assigned_none _ (Hnone ltac:(done) ltac:(intros; repeat constructor))).
      destruct (has_response e); settle_membership.
Qed.

(** X26.  The template table of the task manager refetches after its two
    mutations in the same way. *)
Lemma manager_refetch_follows (st : ManagerTemplate.State)
    (templateId currentStatus : option value) (tk : string) (answer : Template)
    (io : Refetch) :
  refetch_follows 1 (trace (ManagerTemplate.fetchTemplates API io))
    (trace (ManagerTemplate.handleSubmit API st (Ok tk) (Ok answer) io))
  ∧ refetch_follows 1 (trace (ManagerTemplate.fetchTemplates API io))
      (trace (ManagerTemplate.handleToggleActive API st templateId currentStatus
                (Ok tk) (Ok answer) io)).
Proof.
  assert (Hquiet : Forall (λ ev, is_mutation ev = false)
                     (flatten (trace (ManagerTemplate.fetchTemplates API io)))).
  { destruct io as [[tk'|e] [data|e']]; cbn; repeat constructor. }
  split.
  - apply (refetch_follows_intro 1 _ [_; _; _] [_]);
      [reflexivity | exact Hquiet | repeat constructor].
  - apply (refetch_follows_intro 1 _ [_; _] []);
      [reflexivity | exact Hquiet | constructor].
Qed.

(** C3.  An operation that goes through forks the refetch after its last
    mutation request: the trace is [before ++ Fork fetch :: after], every
    mutation request is in [before] (one for a single operation, one per
    template for the two bulk operations), and [fetch] is the whole
    [fetchTemplates], whose GET is that of the template list.  And whatever
    the promises settle to, the [templates] state is assigned nothing but
    the body of the response to that GET. *)
Theorem refetch_after_mutation (st : State) (op : Operation) (w : Settled) :
  (goes_through st op w →
   refetch_follows (requests_of st op)
     (trace (fetchTemplates API st (refetch w))) (trace (perform API st op w))
   ∧ ∀ tk, refetch_token (refetch w) = Ok tk →
           AxiosGet (TASK_TEMPLATES API) tk ∈ trace (fetchTemplates API st (refetch w)))
  ∧ (∀ data, data ∈ templates_assigned (trace (perform API st op w)) →
             refetch_response (refetch w) = Ok data).
Proof.
  split.
  - intros Hgo. split; [by apply goes_through_follows|].
    intros tk Htk. by apply fetchTemplates_full.
  - intros data. apply only_fetch_assigns.
Qed.
End Refetching.

(** Flipping a switch of the sample page when every promise resolves. *)
Lemma refetch_after_mutation_witness :
  goes_through acme_page (ToggleActive (Some (VStr "t1")) (Some (VBool true)))
    (all_resolved [acme_one; acme_two])
  ∧ refetch_follows 1
      (trace (TemplatePage.fetchTemplates sample_api acme_page (sample_refetch [acme_one; acme_two])))
      (trace (perform sample_api acme_page
                (ToggleActive (Some (VStr "t1")) (Some (VBool true)))
                (all_resolved [acme_one; acme_two]))).
Proof.
  assert (Hgo : goes_through acme_page (ToggleActive (Some (VStr "t1")) (Some (VBool true)))
                  (all_resolved [acme_one; acme_two])).
  { split; [by eexists|]. split; [intros i; by eexists | exact I]. }
  split; [exact Hgo|].
  exact (proj1 (proj1 (refetch_after_mutation sample_api acme_page
                         (ToggleActive (Some (VStr "t1")) (Some (VBool true)))
                         (all_resolved [acme_one; acme_two])) Hgo)).
Defined.

(** ** The expand state *)

Section ExpandState.
Import TemplatePage.
Context (API : ApiEndpoints).

Lemma newGroups_fold (closure : gmap string bool) (data : list Template) :
  ∀ (acc : gmap string bool) (key : string),
  foldl (λ acc template,
           let key := groupKey template in
           match get closure key with
           | Missing => <[key := false]> acc
           | _ => acc
           end) acc data !! key
  = if bool_decide (key ∈ groupKey <$> data ∧ get closure key = Missing)
    then Some false else acc !! key.
Proof.
  induction data as [|t rest IH]; intros acc key.
  - cbn. case_bool_decide as H; [|reflexivity].
    destruct H as [H _]. by apply elem_of_nil in H.
  - cbn [foldl]. rewrite IH. cbn [fmap list_fmap].
    destruct (decide (key = groupKey t)) as [->|Hne].
    + destruct (get closure (groupKey t)) eqn:Hget.
      * rewrite !bool_decide_false by (intros [_ ?]; congruence). reflexivity.
      * rewrite !bool_decide_false by (intros [_ ?]; congruence). reflexivity.
      * rewrite (bool_decide_true (groupKey t ∈ groupKey t :: _ ∧ _))
          by (split; [apply list_elem_of_here | reflexivity]).
        case_bool_decide; [reflexivity | apply lookup_insert_eq].
    + assert (Hacc : match get closure (groupKey t) with
                     | Missing => <[groupKey t := false]> acc
                     | _ => acc
                     end !! key = acc !! key).
      { destruct (get closure (groupKey t)); try reflexivity.
        by apply lookup_insert_ne. }
      rewrite Hacc. apply (f_equal (λ b : bool, if b then Some false else acc !! key)).
      apply bool_decide_ext. rewrite elem_of_cons. tauto.
Qed.

(** The keys [fetchTemplates] writes: those of the response which the map
    of the handler's render answers with [undefined]. *)
Lemma newGroups_lookup (closure : gmap string bool) (data : list Template) (key : string) :
  newGroups closure data !! key
  = if bool_decide (key ∈ groupKey <$> data ∧ get closure key = Missing)
    then Some false else None.
Proof. unfold newGroups. by rewrite newGroups_fold, lookup_empty. Qed.

(** The expand state after a fetch of a handler of render [closure] is
    answered in state [st]. *)
Lemma fetchTemplates_expand (closure st : State) (tk : string) (data : list Template) :
  expandedGroups (run st (trace (fetchTemplates API closure
                                   {| refetch_token := Ok tk;
                                      refetch_response := Ok data |})))
  = newGroups (expandedGroups closure) data ∪ expandedGroups st.
Proof. by destruct st. Qed.

(** X20.  When the handler belongs to the render of the current state, a
    refetch keeps every flag the map holds and adds, collapsed, the keys of
    the response the map answers with [undefined]. *)
Lemma fetchTemplates_keeps_current (st : State) (tk : string) (data : list Template) :
  let st' := run st (trace (fetchTemplates API st
                              {| refetch_token := Ok tk; refetch_response := Ok data |})) in
  (∀ key b, expandedGroups st !! key = Some b → expandedGroups st' !! key = Some b)
  ∧ (∀ t, t ∈ data → get (expandedGroups st) (groupKey t) = Missing →
          expandedGroups st' !! groupKey t = Some false).
Proof.
  intros st'. subst st'. rewrite fetchTemplates_expand. split.
  - intros key b Hb. rewrite lookup_union, newGroups_lookup.
    case_bool_decide as H.
    + destruct H as [_ H]. unfold get in H. by rewrite Hb in H.
    + by rewrite Hb.
  - intros t Ht Hmiss. rewrite lookup_union, newGroups_lookup.
    rewrite bool_decide_true.
    + by destruct (expandedGroups st !! groupKey t).
    + split; [|exact Hmiss]. by apply list_elem_of_fmap_2.
Qed.

(** X21.  When the handler belongs to an older render whose map lacks a key, the
    refetch writes [false] over whatever the current map holds for it. *)
Lemma stale_closure_resets (closure st : State) (tk : string) (data : list Template)
    (t : Template) :
  t ∈ data →
  get (expandedGroups closure) (groupKey t) = Missing →
  expandedGroups (run st (trace (fetchTemplates API closure
                                   {| refetch_token := Ok tk;
                                      refetch_response := Ok data |})))
    !! groupKey t = Some false.
Proof.
  intros Ht Hmiss. rewrite fetchTemplates_expand, lookup_union, newGroups_lookup.
  rewrite bool_decide_true.
  - by destruct (expandedGroups st !! groupKey t).
  - split; [by apply list_elem_of_fmap_2 | exact Hmiss].
Qed.

(** C2 (the code departs from the claim).  [fetchTemplates] tests the map
    of the render its handler was created in, not the map it merges into.
    In the run below the Beta group is expanded when the refetch of the
    second handler is answered, the response has a Beta template again, and
    the group is collapsed by it. *)
Theorem stale_refetch_collapses_group :
  expandedGroups after_first_refetch = {[ "Acme" := true; "Beta" := false ]}
  ∧ expandedGroups after_expanding_beta !! "Beta" = Some true
  ∧ groupKey beta_one = "Beta"
  ∧ templates after_second_refetch
    = [sample_template "t1" false [dana; acme]; sample_template "t2" false [acme]; beta_one]
  ∧ expandedGroups after_second_refetch !! "Beta" = Some false.
Proof. repeat split; vm_compute; reflexivity. Qed.
End ExpandState.

(** ** Selecting an assignee *)

Section Selection.

Lemma find_id_None (l : list Assignee) (i : string) :
  i ∉ ids l → List.find (λ a, String.eqb (a_id a) i) l = None.
Proof.
  induction l as [|x rest IH]; intros Hni; [reflexivity|].
  cbn [ids fmap list_fmap] in Hni. apply not_elem_of_cons in Hni as [Hne Hni].
  cbn [List.find]. destruct (String.eqb_spec (a_id x) i) as [Heq|_]; [congruence|].
  by apply IH.
Qed.

Lemma find_id_Some (l : list Assignee) (i : string) :
  i ∈ ids l → ∃ a, List.find (λ a, String.eqb (a_id a) i) l = Some a.
Proof.
  induction l as [|x rest IH]; intros Hin.
  - by apply elem_of_nil in Hin.
  - cbn [List.find]. destruct (String.eqb_spec (a_id x) i) as [Heq|Hne]; [by eexists|].
    cbn [ids fmap list_fmap] in Hin. apply elem_of_cons in Hin as [Heq|Hin]; [congruence|].
    by apply IH.
Qed.

Lemma filter_other_ids (l : list Assignee) (i : string) :
  i ∉ ids l → List.filter (λ a, negb (String.eqb (a_id a) i)) l = l.
Proof.
  induction l as [|x rest IH]; intros Hni; [reflexivity|].
  cbn [ids fmap list_fmap] in Hni. apply not_elem_of_cons in Hni as [Hne Hni].
  cbn [List.filter]. destruct (String.eqb_spec (a_id x) i) as [Heq|_]; [congruence|].
  cbn [negb]. f_equal. by apply IH.
Qed.

Lemma filter_drops_id (l : list Assignee) (i : string) :
  i ∉ ids (List.filter (λ a, negb (String.eqb (a_id a) i)) l).
Proof.
  induction l as [|x rest IH]; [apply not_elem_of_nil|].
  cbn [List.filter]. destruct (String.eqb_spec (a_id x) i) as [Heq|Hne]; cbn [negb].
  - exact IH.
  - cbn [ids fmap list_fmap]. apply not_elem_of_cons. split; [congruence | exact IH].
Qed.

Lemma filter_keeps_NoDup (l : list Assignee) (i : string) :
  NoDup (ids l) → NoDup (ids (List.filter (λ a, negb (String.eqb (a_id a) i)) l)).
Proof.
  induction l as [|x rest IH]; intros Hnd; [constructor|].
  cbn [ids fmap list_fmap] in Hnd. apply NoDup_cons in Hnd as [Hx Hrest].
  cbn [List.filter]. destruct (negb (String.eqb (a_id x) i)); [|by apply IH].
  cbn [ids fmap list_fmap]. apply NoDup_cons. split; [|by apply IH].
  intros Hin. apply Hx. unfold ids in *.
  apply list_elem_of_fmap in Hin as (y & -> & Hy).
  apply list_elem_of_In, filter_In in Hy as [Hy _].
  apply list_elem_of_fmap_2. by apply list_elem_of_In.
Qed.

(** The claim of C4 as it is worded fails in the task modal: selecting
    Acme, already the first of two entries, moves it behind Dana. *)
Lemma select_present_id_reorders :
  a_id acme ∈ ids (TaskModal.form_assignees (TaskModal.formData modal_two))
  ∧ TaskModal.form_assignees
      (TaskModal.formData
         (TaskModal.run modal_two (trace (TaskModal.handleAssigneeSelect acme))))
    = [TaskModal.assigneeEntry dana; TaskModal.assigneeEntry acme]
  ∧ TaskModal.form_assignees
      (TaskModal.formData
         (TaskModal.run modal_two (trace (TaskModal.handleAssigneeSelect acme))))
    ≠ TaskModal.form_assignees (TaskModal.formData modal_two).
Proof.
  split; [|split].
  - cbn. apply list_elem_of_here.
  - reflexivity.
  - cbn. discriminate.
Qed.

(** C4, amended.  In the two template forms, selecting a candidate whose
    id is in the list leaves the list as it is, and a candidate with a new
    id is appended at the end.  In the task modal the entries with the
    candidate's id are removed and an entry built from the candidate is
    appended at the end, whether or not the id was there: a new id appends,
    a present id is moved to the end, and a list without repeated ids stays
    so. *)
Theorem assignee_selection (assignee : Assignee)
    (page : TemplatePage.State) (manager : ManagerTemplate.State) (modal : TaskModal.State)
    (selected : list Assignee) :
  ManagerTemplate.assignees_of_form manager = Some selected →
  let page' := TemplatePage.run page (trace (TemplatePage.handleSelectAssignee page assignee)) in
  let manager' :=
    ManagerTemplate.run manager (trace (ManagerTemplate.handleSelectAssignee manager assignee)) in
  let modal' := TaskModal.run modal (trace (TaskModal.handleAssigneeSelect assignee)) in
  let before := TaskModal.form_assignees (TaskModal.formData modal) in
  let after := TaskModal.form_assignees (TaskModal.formData modal') in
  (a_id assignee ∈ ids (TemplatePage.selectedAssignees page) →
     TemplatePage.selectedAssignees page' = TemplatePage.selectedAssignees page)
  ∧ (a_id assignee ∉ ids (TemplatePage.selectedAssignees page) →
     TemplatePage.selectedAssignees page' = TemplatePage.selectedAssignees page ++ [assignee])
  ∧ (a_id assignee ∈ ids selected →
     ManagerTemplate.assignees_of_form manager' = Some selected)
  ∧ (a_id assignee ∉ ids selected →
     ManagerTemplate.assignees_of_form manager' = Some (selected ++ [assignee]))
  ∧ after = List.filter (λ a, negb (String.eqb (a_id a) (a_id assignee))) before
            ++ [TaskModal.assigneeEntry assignee]
  ∧ (a_id assignee ∉ ids before → after = before ++ [TaskModal.assigneeEntry assignee])
  ∧ (NoDup (ids before) → NoDup (ids after)).
Proof.
  intros Hform page' manager' modal' before after.
  split; [|split; [|split; [|split; [|split; [|split]]]]].
  - intros Hin. subst page'. unfold TemplatePage.handleSelectAssignee.
    destruct (find_id_Some _ _ Hin) as [a ->]. by destruct page.
  - intros Hni. subst page'. unfold TemplatePage.handleSelectAssignee.
    rewrite (find_id_None _ _ Hni). by destruct page.
  - intros Hin. subst manager'.
    unfold ManagerTemplate.handleSelectAssignee, ManagerTemplate.assignees_of_form in *.
    rewrite Hform. destruct (find_id_Some _ _ Hin) as [a ->].
    destruct manager; exact Hform.
  - intros Hni. subst manager'.
    unfold ManagerTemplate.handleSelectAssignee, ManagerTemplate.assignees_of_form in *.
    rewrite Hform, (find_id_None _ _ Hni). by destruct manager.
  - subst after modal' before. by destruct modal.
  - intros Hni. subst after modal' before. destruct modal as [fd ao cd]. cbn in *.
    unfold TaskModal.selectedAfter. by rewrite filter_other_ids.
  - intros Hnd. subst after modal' before. destruct modal as [fd ao cd]. cbn in *.
    unfold TaskModal.selectedAfter, ids. rewrite fmap_app. apply NoDup_app.
    split; [by apply filter_keeps_NoDup|]. split; [|apply NoDup_singleton].
    intros i Hi Hi'. apply list_elem_of_singleton in Hi'. cbn in Hi'. subst i.
    by apply (filter_drops_id (TaskModal.form_assignees fd) (a_id assignee)).
Qed.
End Selection.

(** Acme selected in an empty template form and in a modal that holds it. *)
Lemma assignee_selection_witness :
  ManagerTemplate.assignees_of_form manager_page = Some []
  ∧ ManagerTemplate.assignees_of_form
      (ManagerTemplate.run manager_page
         (trace (ManagerTemplate.handleSelectAssignee manager_page acme)))
    = Some [acme]
  ∧ TaskModal.form_assignees
      (TaskModal.formData
         (TaskModal.run modal_two (trace (TaskModal.handleAssigneeSelect acme))))
    = [TaskModal.assigneeEntry dana; TaskModal.assigneeEntry acme].
Proof.
  split; [reflexivity|].
  pose proof (assignee_selection acme acme_page manager_page modal_two [] eq_refl)
    as (_ & _ & _ & Hmanager & Hmodal & _).
  split; [apply Hmanager, not_elem_of_nil | exact Hmodal].
Defined.

(** ** The search threshold *)

Section SearchGate.
Context (API : ApiEndpoints).

(** X22.  The call sites that test the length: a query of fewer than two
    characters empties the candidates and makes no request. *)
Lemma gated_search_short_query (query : string) (tok : result string)
    (response : result (option (list Assignee)))
    (page : TemplatePage.State) (manager : ManagerTemplate.State) (modal : TaskModal.State) :
  (String.length query < 2)%nat →
  let managerTrace := trace (ManagerTemplate.handleSearchChange API query tok response) in
  let modalTrace := trace (TaskModal.handleAssigneeSearch API modal query tok response) in
  let clientTrace :=
    trace (TemplatePage.handleNewClientSearchChange API page query tok response) in
  ManagerTemplate.searchResults (ManagerTemplate.run manager managerTrace) = []
  ∧ TaskModal.assigneeOptions (TaskModal.run modal modalTrace) = []
  ∧ TemplatePage.newClientSearchResults (TemplatePage.run page clientTrace) = []
  ∧ Forall (λ ev, is_request ev = false) (flatten managerTrace)
  ∧ Forall (λ ev, is_request ev = false) (flatten modalTrace)
  ∧ Forall (λ ev, is_request ev = false) (flatten clientTrace).
Proof.
  intros Hshort.
  unfold ManagerTemplate.handleSearchChange, TaskModal.handleAssigneeSearch,
    TemplatePage.handleNewClientSearchChange.
  apply Nat.leb_gt in Hshort. rewrite Hshort. cbn.
  destruct page, manager, modal. repeat split; repeat constructor.
Qed.

(** C5 (the code departs from the claim).  The assignee search box of the
    template page calls [searchAssignees] with no test of the length: for
    the one-character query [a] the request is made and its candidates are
    shown, where the same keystroke in the task-manager form shows none. *)
Theorem ungated_search_one_character :
  let shown := TemplatePage.run acme_page
      (trace (TemplatePage.handleSearchChange sample_api acme_page "a"
                (Ok "token") (Ok (Some [acme])))) in
  let gated := ManagerTemplate.run manager_page
      (trace (ManagerTemplate.handleSearchChange sample_api "a"
                (Ok "token") (Ok (Some [acme])))) in
  String.length "a" = 1%nat
  ∧ TemplatePage.searchResults shown = [acme]
  ∧ AxiosGet "/api/tasks/search_assignees?query=a" "token"
    ∈ flatten (trace (TemplatePage.handleSearchChange sample_api acme_page "a"
                        (Ok "token") (Ok (Some [acme]))))
  ∧ ManagerTemplate.searchResults gated = [].
Proof.
  repeat split; try reflexivity.
  cbn. apply list_elem_of_further, list_elem_of_further, list_elem_of_here.
Qed.
End SearchGate.

(** ** Binary64 arithmetic *)

Section Binary64.

Lemma Pos_iter_shl q d : Pos.iter xO q d = shl q (Pos.to_nat d).
Proof. unfold shl. apply Pos2Nat.inj_iter. Qed.

Lemma shl_Z q n : Z.pos (shl q n) = Z.pos q * 2 ^ Z.of_nat n.
Proof.
  induction n as [|n IH]; [cbn; lia|].
  change (shl q (S n)) with (xO (shl q n)).
  rewrite Pos2Z.inj_xO, IH, Nat2Z.inj_succ, Z.pow_succ_r by lia. lia.
Qed.

Lemma digits2_shl q n :
  Z.pos (digits2_pos (shl q n)) = Z.pos (digits2_pos q) + Z.of_nat n.
Proof.
  induction n as [|n IH]; [cbn; lia|].
  change (shl q (S n)) with (xO (shl q n)). cbn [digits2_pos].
  rewrite Pos2Z.inj_succ, IH. lia.
Qed.

Lemma shl_add q n m : shl (shl q n) m = shl q (n + m).
Proof. unfold shl. rewrite Nat.add_comm. symmetry. apply Nat.iter_add. Qed.

Lemma iter_pos_nat {A} (f : A → A) p x :
  @SpecFloat.iter_pos A f p x = Nat.iter (Pos.to_nat p) f x.
Proof.
  revert x. induction p as [p IH|p IH|]; intros x; cbn [SpecFloat.iter_pos].
  - rewrite !IH, Pos2Nat.inj_xI.
    replace (S (2 * Pos.to_nat p)) with (Pos.to_nat p + (Pos.to_nat p + 1))%nat by lia.
    rewrite !Nat.iter_add. reflexivity.
  - rewrite !IH, Pos2Nat.inj_xO.
    replace (2 * Pos.to_nat p)%nat with (Pos.to_nat p + Pos.to_nat p)%nat by lia.
    by rewrite Nat.iter_add.
  - reflexivity.
Qed.

Lemma shr_shl q n j :
  (j ≤ n)%nat →
  Nat.iter j shr_1 {| shr_m := Z.pos (shl q n); shr_r := false; shr_s := false |}
  = {| shr_m := Z.pos (shl q (n - j)); shr_r := false; shr_s := false |}.
Proof.
  induction j as [|j IH]; intros Hj.
  - by rewrite Nat.sub_0_r.
  - rewrite Nat.iter_succ, IH by lia.
    replace (n - j)%nat with (S (n - S j)) by lia.
    reflexivity.
Qed.

(** A value [q * 2^e] that fits the format is stored as it is, whatever
    multiple of a power of two it is presented as. *)
Lemma binary_round_shl s q j e :
  let ec := fexp 53 1024 (Z.pos (digits2_pos q) + e) in
  ec ≤ e → ec ≤ 1024 - 53 →
  binary_round 53 1024 s (shl q j) (e - Z.of_nat j)
  = S754_finite s (shl q (Z.to_nat (e - ec))) ec.
Proof.
  intros ec He Hmax.
  set (m := shl q (Z.to_nat (e - ec))).
  assert (Hstay : shr_fexp 53 1024 (Z.pos m) ec loc_Exact
                  = ({| shr_m := Z.pos m; shr_r := false; shr_s := false |}, ec)).
  { unfold shr_fexp, m. cbn [Zdigits2 shr_record_of_loc].
    rewrite digits2_shl, Z2Nat.id by lia.
    replace (Z.pos (digits2_pos q) + (e - ec) + ec) with (Z.pos (digits2_pos q) + e) by lia.
    fold ec. by rewrite Z.sub_diag. }
  assert (Hcanon : binary_round_aux 53 1024 s (Z.pos m) ec loc_Exact = S754_finite s m ec).
  { unfold binary_round_aux. rewrite Hstay.
    cbn [shr_m loc_of_shr_record round_nearest_even]. rewrite Hstay. cbn [shr_m].
    destruct (Z.leb_spec ec (1024 - 53)); [done|lia]. }
  unfold binary_round, shl_align.
  rewrite digits2_shl.
  replace (Z.pos (digits2_pos q) + Z.of_nat j + (e - Z.of_nat j))
    with (Z.pos (digits2_pos q) + e) by lia.
  fold ec.
  destruct (ec - (e - Z.of_nat j)) as [|d|d] eqn:Hd.
  - replace (e - Z.of_nat j) with ec by lia.
    replace (shl q j) with m by (unfold m; f_equal; lia). exact Hcanon.
  - unfold binary_round_aux, shr_fexp at 1. cbn [Zdigits2 shr_record_of_loc].
    rewrite digits2_shl.
    replace (Z.pos (digits2_pos q) + Z.of_nat j + (e - Z.of_nat j))
      with (Z.pos (digits2_pos q) + e) by lia.
    fold ec. rewrite Hd.
    cbn [shr]. rewrite iter_pos_nat, shr_shl by lia.
    cbn [shr_m loc_of_shr_record round_nearest_even].
    replace (e - Z.of_nat j + Z.pos d) with ec by lia.
    replace (shl q (j - Pos.to_nat d)) with m by (unfold m; f_equal; lia).
    rewrite Hstay. cbn [shr_m].
    destruct (Z.leb_spec ec (1024 - 53)); [done|lia].
  - rewrite Pos_iter_shl, shl_add.
    replace (shl q (j + Pos.to_nat d)) with m by (unfold m; f_equal; lia).
    exact Hcanon.
Qed.

Lemma digits2_bounds q :
  2 ^ (Z.pos (digits2_pos q) - 1) ≤ Z.pos q < 2 ^ Z.pos (digits2_pos q).
Proof.
  induction q as [q IH|q IH|]; cbn [digits2_pos]; [| |cbn; lia].
  all: rewrite Pos2Z.inj_succ;
       replace (Z.succ (Z.pos (digits2_pos q)) - 1) with (Z.succ (Z.pos (digits2_pos q) - 1)) by lia;
       rewrite !Z.pow_succ_r by lia; lia.
Qed.

Lemma digits2_le_prec q : Z.pos q < 2 ^ 53 → Z.pos (digits2_pos q) ≤ 53.
Proof.
  intros Hq. pose proof (digits2_bounds q) as [Hlo _].
  destruct (Z.le_gt_cases (Z.pos (digits2_pos q)) 53) as [|Hgt]; [done|].
  assert (2 ^ 53 ≤ 2 ^ (Z.pos (digits2_pos q) - 1)) by (apply Z.pow_le_mono_r; lia).
  lia.
Qed.

Lemma fits_fexp q e :
  fits (Z.pos q) e →
  fexp 53 1024 (Z.pos (digits2_pos q) + e) ≤ e
  ∧ fexp 53 1024 (Z.pos (digits2_pos q) + e) ≤ 1024 - 53.
Proof.
  intros [Hq He]. pose proof (digits2_le_prec q) as Hd.
  unfold fexp, emin. lia.
Qed.

Lemma binary_round_fits s p e :
  fits (Z.pos p) e →
  binary_round 53 1024 s p e
  = S754_finite s (shl p (Z.to_nat (e - fexp 53 1024 (Z.pos (digits2_pos p) + e))))
                (fexp 53 1024 (Z.pos (digits2_pos p) + e)).
Proof.
  intros Hfit. destruct (fits_fexp p e Hfit) as [H1 H2].
  pose proof (binary_round_shl s p 0 e H1 H2) as H0.
  change (shl p 0) with p in H0. change (Z.of_nat 0) with 0 in H0.
  by rewrite Z.sub_0_r in H0.
Qed.

Lemma normalize_scaled z e (k : nat) szero :
  fits z e →
  binary_normalize 53 1024 (z * 2 ^ Z.of_nat k) (e - Z.of_nat k) szero
  = binary_normalize 53 1024 z e szero.
Proof.
  intros Hfit. destruct z as [|p|p].
  - reflexivity.
  - destruct (fits_fexp p e Hfit) as [H1 H2].
    rewrite <- shl_Z. cbn [binary_normalize].
    by rewrite binary_round_shl, binary_round_fits.
  - assert (Hfit' : fits (Z.pos p) e) by exact Hfit.
    destruct (fits_fexp p e Hfit') as [H1 H2].
    replace (Z.neg p * 2 ^ Z.of_nat k) with (Z.neg (shl p k))
      by (rewrite <- Pos2Z.opp_pos, shl_Z; lia).
    cbn [binary_normalize].
    by rewrite binary_round_shl, binary_round_fits.
Qed.

(** The stored form of a value that fits. *)
Lemma normalize_canonical s p e szero :
  fits (Z.pos p) e →
  binary_normalize 53 1024 (cond_Zopp s (Z.pos p)) e szero
  = S754_finite s (shl p (Z.to_nat (e - fexp 53 1024 (Z.pos (digits2_pos p) + e))))
                (fexp 53 1024 (Z.pos (digits2_pos p) + e)).
Proof.
  intros Hfit. destruct s; cbn [cond_Zopp Z.opp binary_normalize]; by apply binary_round_fits.
Qed.

Lemma shl_align_fst m ex ez :
  ez ≤ ex → fst (shl_align m ex ez) = shl m (Z.to_nat (ex - ez)).
Proof.
  intros H. unfold shl_align. destruct (ez - ex) as [|d|d] eqn:Hd; cbn [fst].
  - by replace (ex - ez) with 0 by lia.
  - lia.
  - rewrite Pos_iter_shl. f_equal. lia.
Qed.

Lemma cond_Zopp_abs z : z ≠ 0 → cond_Zopp (z <? 0) (Z.pos (Z.to_pos (Z.abs z))) = z.
Proof. destruct z; [done|reflexivity|reflexivity]. Qed.

(** Sums and differences of values given at a common exponent are exact as
    long as the result fits. *)
Lemma sub_normalize x y e :
  fits x e → fits y e → fits (x - y) e →
  SFsub 53 1024 (binary_normalize 53 1024 x e false) (binary_normalize 53 1024 y e false)
  = binary_normalize 53 1024 (x - y) e false.
Proof.
  intros Hx Hy Hxy.
  destruct (Z.eq_dec y 0) as [->|Hy0].
  { rewrite Z.sub_0_r. cbn [binary_normalize].
    destruct (binary_normalize 53 1024 x e false) eqn:E; try reflexivity.
    by destruct s. }
  destruct (Z.eq_dec x 0) as [->|Hx0].
  { rewrite Z.sub_0_l.
    rewrite <- (cond_Zopp_abs y Hy0) at 1.
    replace (- y) with (cond_Zopp (negb (y <? 0)) (Z.pos (Z.to_pos (Z.abs y))))
      by (destruct y; done).
    assert (Hfy : fits (Z.pos (Z.to_pos (Z.abs y))) e) by (destruct y; done).
    rewrite !normalize_canonical by done. reflexivity. }
  rewrite <- (cond_Zopp_abs x Hx0) at 1. rewrite <- (cond_Zopp_abs y Hy0) at 1.
  set (px := Z.to_pos (Z.abs x)). set (py := Z.to_pos (Z.abs y)).
  assert (Hfx : fits (Z.pos px) e) by (destruct x; done).
  assert (Hfy : fits (Z.pos py) e) by (destruct y; done).
  rewrite !normalize_canonical by done.
  destruct (fits_fexp px e Hfx) as [Hx1 _]. destruct (fits_fexp py e Hfy) as [Hy1 _].
  set (ecx := fexp 53 1024 (Z.pos (digits2_pos px) + e)) in *.
  set (ecy := fexp 53 1024 (Z.pos (digits2_pos py) + e)) in *.
  cbn [SFsub].
  rewrite !shl_align_fst by lia. rewrite !shl_add, !shl_Z.
  set (ez := Z.min ecx ecy).
  assert (Hez : -1074 ≤ ez) by (unfold ez, ecx, ecy, fexp, emin; lia).
  replace (Z.of_nat (Z.to_nat (e - ecx) + Z.to_nat (ecx - ez))) with (e - ez) by lia.
  replace (Z.of_nat (Z.to_nat (e - ecy) + Z.to_nat (ecy - ez))) with (e - ez) by lia.
  replace (cond_Zopp (x <? 0) (Z.pos px * 2 ^ (e - ez)) - cond_Zopp (y <? 0) (Z.pos py * 2 ^ (e - ez)))
    with ((x - y) * 2 ^ Z.of_nat (Z.to_nat (e - ez))).
  2:{ rewrite Z2Nat.id by lia.
      rewrite <- (cond_Zopp_abs x Hx0) at 1. rewrite <- (cond_Zopp_abs y Hy0) at 1.
      fold px py. destruct (x <? 0), (y <? 0); cbn [cond_Zopp]; lia. }
  replace ez with (e - Z.of_nat (Z.to_nat (e - ez))) at 2 by lia.
  by apply normalize_scaled.
Qed.

Lemma add_normalize x y e :
  fits x e → fits y e → fits (x + y) e →
  SFadd 53 1024 (binary_normalize 53 1024 x e false) (binary_normalize 53 1024 y e false)
  = binary_normalize 53 1024 (x + y) e false.
Proof.
  intros Hx Hy Hxy.
  destruct (Z.eq_dec y 0) as [->|Hy0].
  { rewrite Z.add_0_r. cbn [binary_normalize].
    destruct (binary_normalize 53 1024 x e false) eqn:E; try reflexivity.
    destruct x as [|p|p]; [by inversion E| |]; cbn [binary_normalize] in E;
      rewrite binary_round_fits in E by done; discriminate. }
  destruct (Z.eq_dec x 0) as [->|Hx0].
  { rewrite Z.add_0_l. cbn [binary_normalize].
    destruct (binary_normalize 53 1024 y e false) eqn:E; try reflexivity.
    destruct y as [|p|p]; [done| |]; cbn [binary_normalize] in E;
      rewrite binary_round_fits in E by done; discriminate. }
  rewrite <- (cond_Zopp_abs x Hx0) at 1. rewrite <- (cond_Zopp_abs y Hy0) at 1.
  set (px := Z.to_pos (Z.abs x)). set (py := Z.to_pos (Z.abs y)).
  assert (Hfx : fits (Z.pos px) e) by (destruct x; done).
  assert (Hfy : fits (Z.pos py) e) by (destruct y; done).
  rewrite !normalize_canonical by done.
  destruct (fits_fexp px e Hfx) as [Hx1 _]. destruct (fits_fexp py e Hfy) as [Hy1 _].
  set (ecx := fexp 53 1024 (Z.pos (digits2_pos px) + e)) in *.
  set (ecy := fexp 53 1024 (Z.pos (digits2_pos py) + e)) in *.
  cbn [SFadd].
  rewrite !shl_align_fst by lia. rewrite !shl_add, !shl_Z.
  set (ez := Z.min ecx ecy).
  assert (Hez : -1074 ≤ ez) by (unfold ez, ecx, ecy, fexp, emin; lia).
  replace (Z.of_nat (Z.to_nat (e - ecx) + Z.to_nat (ecx - ez))) with (e - ez) by lia.
  replace (Z.of_nat (Z.to_nat (e - ecy) + Z.to_nat (ecy - ez))) with (e - ez) by lia.
  replace (cond_Zopp (x <? 0) (Z.pos px * 2 ^ (e - ez)) + cond_Zopp (y <? 0) (Z.pos py * 2 ^ (e - ez)))
    with ((x + y) * 2 ^ Z.of_nat (Z.to_nat (e - ez))).
  2:{ rewrite Z2Nat.id by lia.
      rewrite <- (cond_Zopp_abs x Hx0) at 1. rewrite <- (cond_Zopp_abs y Hy0) at 1.
      fold px py. destruct (x <? 0), (y <? 0); cbn [cond_Zopp]; lia. }
  replace ez with (e - Z.of_nat (Z.to_nat (e - ez))) at 2 by lia.
  by apply normalize_scaled.
Qed.

Lemma floor_normalize z e :
  fits z e → Number.Math_floor (binary_normalize 53 1024 z e false) = Number.Int (Z.shiftl z e).
Proof.
  intros Hfit. destruct (Z.eq_dec z 0) as [->|Hz]; [by rewrite Z.shiftl_0_l|].
  rewrite <- (cond_Zopp_abs z Hz) at 1.
  assert (Hf : fits (Z.pos (Z.to_pos (Z.abs z))) e) by (destruct z; done).
  rewrite normalize_canonical by done. destruct (fits_fexp _ e Hf) as [H1 _].
  cbn [Number.Math_floor]. f_equal.
  set (p := Z.to_pos (Z.abs z)) in *. set (ec := fexp 53 1024 _) in *.
  replace (cond_Zopp (z <? 0) (Z.pos (shl p (Z.to_nat (e - ec)))))
    with (Z.shiftl z (e - ec)).
  - rewrite Z.shiftl_shiftl by lia. f_equal. lia.
  - rewrite Z.shiftl_mul_pow2 by lia. rewrite shl_Z, Z2Nat.id by lia.
    rewrite <- (cond_Zopp_abs z Hz) at 1. fold p. by destruct (z <? 0); cbn [cond_Zopp]; lia.
Qed.

Lemma fits_whole z : Z.abs z < 2 ^ 53 → fits z 0.
Proof. by split; [|lia]. Qed.

Lemma Math_floor_of_Z z : Z.abs z < 2 ^ 53 → Number.Math_floor (Number.of_Z z) = Number.Int z.
Proof.
  intros H. unfold Number.of_Z. rewrite floor_normalize by by apply fits_whole.
  by rewrite Z.shiftl_0_r.
Qed.

Lemma whole_add_exact a b :
  Z.abs a < 2 ^ 53 → Z.abs b < 2 ^ 53 → Z.abs (a + b) < 2 ^ 53 →
  Number.whole_add (Number.Int a) (Number.Int b) = Number.Int (a + b).
Proof.
  intros Ha Hb Hab. unfold Number.whole_add, Number.add, Number.of_whole, Number.of_Z.
  rewrite add_normalize by by apply fits_whole.
  by apply Math_floor_of_Z.
Qed.




(** Numbers in a template literal: digits below [10^21], the exponent form
    from there on. *)
Lemma to_string_numbers :
  to_string (Some (VNum 15)) = "15"
  ∧ to_string (Some (VNum (-7))) = "-7"
  ∧ to_string (Some (VNum (2 ^ 60))) = "1152921504606847000"
  ∧ to_string (Some (VNum (10 ^ 21))) = "1e+21"
  ∧ to_string (Some (VNum (2 ^ 70))) = "1.1805916207174113e+21".
Proof. repeat split; vm_compute; reflexivity. Qed.

End Binary64.

(** ** The completion flow *)

Section Completion.
Import TaskModal.

Lemma truthy_normalize z e :
  fits z e →
  Number.or_zero (Number.parseFloat (binary_normalize 53 1024 z e false))
  = binary_normalize 53 1024 z e false.
Proof.
  intros Hfit. destruct z as [|p|p]; [done| |]; cbn [binary_normalize];
    by rewrite binary_round_fits.
Qed.

Lemma or_zero_whole_Int m : Number.or_zero_whole (Number.Int m) = Number.Int m.
Proof. by destruct m. Qed.

Lemma parseInt_plain m : Z.abs m < 10 ^ 21 → Number.parseInt (Number.Int m) = Number.Int m.
Proof. intros H. unfold Number.parseInt. by destruct (Z.ltb_spec (Z.abs m) (10 ^ 21)); [|lia]. Qed.

Lemma decompose_half k m n :
  0 ≤ k < 2 ^ 53 → Z.abs m < 2 ^ 52 →
  decompose {| hours := half k; minutes := Number.Int m; notes := n |}
  = (Number.Int (k / 2), Number.Int (30 * (k mod 2) + m)).
Proof.
  intros Hk Hm. unfold decompose. cbn [hours minutes]. unfold half.
  assert (Hfk : fits k (-1)) by (split; lia).
  rewrite truthy_normalize by done.
  rewrite floor_normalize by done.
  change (Z.shiftl k (-1)) with (Z.shiftr k 1).
  rewrite Z.shiftr_div_pow2 by lia. change (2 ^ 1) with 2.
  pose proof (Z.div_mod k 2 ltac:(lia)) as Hdiv.
  pose proof (Z.mod_pos_bound k 2 ltac:(lia)) as Hmod.
  assert (Hq : 0 ≤ k / 2 < 2 ^ 52) by (split; [apply Z.div_pos; lia|apply Z.div_lt_upper_bound; lia]).
  f_equal.
  rewrite parseInt_plain, or_zero_whole_Int by lia.
  cbn [Number.of_whole]. unfold Number.of_Z.
  rewrite <- (normalize_scaled (k / 2) 0 1) by (split; lia).
  change (0 - Z.of_nat 1) with (-1). change (2 ^ Z.of_nat 1) with 2.
  unfold Number.sub. rewrite sub_normalize by (split; lia).
  replace (k - k / 2 * 2) with (k mod 2) by lia.
  assert (Hcases : k mod 2 = 0 ∨ k mod 2 = 1) by lia.
  destruct Hcases as [-> | ->].
  - change (Number.Math_round (Number.mul (binary_normalize 53 1024 0 (-1) false)
                            (binary_normalize 53 1024 60 0 false))) with (Number.Int 0).
    rewrite whole_add_exact by lia. f_equal.
  - replace (Number.Math_round (Number.mul (binary_normalize 53 1024 1 (-1) false)
                             (binary_normalize 53 1024 60 0 false))) with (Number.Int 30)
      by (vm_compute; reflexivity).
    rewrite whole_add_exact by lia. f_equal.
Qed.



(** The entry carries the two numbers as [JSON.stringify] writes them. *)
Lemma timesheetEntry_numbers (today : string) (task : Template) (c : CompletionData) :
  props (timesheetEntry today task c) !! "hours" = Some (json (fst (decompose c)))
  ∧ props (timesheetEntry today task c) !! "minutes" = Some (json (snd (decompose c))).
Proof.
  unfold timesheetEntry. destruct (decompose c) as [hh mm]. cbn [props fst snd].
  unfold optional_prop.
  destruct (props task !! "_id"); split; try rewrite lookup_insert_ne by done;
    reflexivity.
Qed.

(** The completion posts one thing, the timesheet entry. *)
Lemma handleComplete_posts (API : ApiEndpoints) (st : State) (today : string)
    (task : Template) (tk : string) (posted updated : result Template) :
  post_requests (trace (handleComplete API st today task (Ok tk) posted updated))
  = [(TIMESHEET_ENTRIES API, timesheetEntry today task (completionData st))].
Proof. unfold handleComplete. destruct posted, updated; reflexivity. Qed.


Lemma decimal_half_1 : decimal 5 1 = half 1.
Proof. vm_compute. reflexivity. Qed.

(** Where binary64 shows: the product for 1.025 hours falls just below 1.5,
    the one for 0.075 hours is rounded up to 4.5, and minutes of [10^21] are
    read back from their exponent form as 1. *)
Lemma decompose_binary64_examples :
  decompose {| hours := decimal 1025 3; minutes := Number.Int 0; notes := "" |}
  = (Number.Int 1, Number.Int 1)
  ∧ decompose {| hours := decimal 75 3; minutes := Number.Int 0; notes := "" |}
    = (Number.Int 0, Number.Int 5)
  ∧ decompose {| hours := decimal 15 1; minutes := Number.Int (10 ^ 21); notes := "" |}
    = (Number.Int 1, Number.Int 31)
  ∧ decompose {| hours := S754_infinity false; minutes := Number.Int 5; notes := "" |}
    = (Number.Infinity false, Number.NaN).
Proof. repeat split; vm_compute; reflexivity. Qed.


(** C10.  Nothing carries minutes into hours.  With half an hour and 45
    minutes in the form, [handleComplete] posts an entry of 0 hours and 75
    minutes; more generally, with an odd number of half hours and 30 to 59
    minutes the posted minutes are 60 or more and the posted hours are the
    whole hours of the hours field alone; and the posted hours never depend
    on the minutes of the form. *)
Theorem completion_minutes_not_normalised (API : ApiEndpoints) (today : string)
    (task : Template) (tk : string) (posted updated : result Template) :
  (∀ fd ao n,
     let st := {| formData := fd; assigneeOptions := ao;
                  completionData := {| hours := decimal 5 1;
                                       minutes := Number.Int 45;
                                       notes := n |} |} in
     ∃ entry,
       post_requests (trace (handleComplete API st today task (Ok tk) posted updated))
       = [(TIMESHEET_ENTRIES API, entry)]
       ∧ props entry !! "hours" = Some (VNum 0)
       ∧ props entry !! "minutes" = Some (VNum 75))
  ∧ (∀ st k z, hours (completionData st) = half k
     → minutes (completionData st) = Number.Int z
     → 0 ≤ k < 2 ^ 53 → k mod 2 = 1 → 30 ≤ z ≤ 59
     → ∃ entry,
         post_requests (trace (handleComplete API st today task (Ok tk) posted updated))
         = [(TIMESHEET_ENTRIES API, entry)]
         ∧ props entry !! "hours" = Some (VNum (k / 2))
         ∧ props entry !! "minutes" = Some (VNum (30 + z))
         ∧ 60 ≤ 30 + z)
  ∧ (∀ c c', hours c = hours c'
     → props (timesheetEntry today task c) !! "hours"
       = props (timesheetEntry today task c') !! "hours").
Proof.
  assert (Hgen : ∀ st k z, hours (completionData st) = half k
     → minutes (completionData st) = Number.Int z
     → 0 ≤ k < 2 ^ 53 → Z.abs z < 2 ^ 52
     → ∃ entry,
         post_requests (trace (handleComplete API st today task (Ok tk) posted updated))
         = [(TIMESHEET_ENTRIES API, entry)]
         ∧ props entry !! "hours" = Some (VNum (k / 2))
         ∧ props entry !! "minutes" = Some (VNum (30 * (k mod 2) + z))).
  { intros st k z Hh Hz Hk Hlz.
    exists (timesheetEntry today task (completionData st)).
    split; [apply handleComplete_posts|].
    destruct (timesheetEntry_numbers today task (completionData st)) as [-> ->].
    destruct (completionData st) as [h w n]. cbn [hours minutes] in Hh, Hz. subst h w.
    by rewrite decompose_half. }
  split; [|split].
  - intros fd ao n st.
    destruct (Hgen st 1 45 decimal_half_1 eq_refl ltac:(lia) ltac:(lia))
      as (entry & ? & ? & ?).
    by exists entry.
  - intros st k z Hh Hz Hk Hodd Hz'.
    destruct (Hgen st k z Hh Hz Hk ltac:(lia)) as (entry & ? & ? & Hmin).
    exists entry. rewrite Hodd in Hmin. repeat split; [done..|lia].
  - intros c c' Heq.
    destruct (timesheetEntry_numbers today task c) as [-> _].
    destruct (timesheetEntry_numbers today task c') as [-> _].
    unfold decompose. cbn [fst]. by rewrite Heq.
Qed.
End Completion.

(** ** Failures *)

Section Failures.
Import TemplatePage.
Context (API : ApiEndpoints).

Lemma map_indexed_requests {A B} (f : nat → A → Eff Setter B) (g : nat → A → B)
    (l : list A) : ∀ n,
  (∀ i x, outcome (f i x) = Ok (g i x)) →
  (∀ i x, length (List.filter is_mutation (flatten (trace (f i x)))) = 1%nat) →
  length (List.filter is_mutation (flatten (trace (map_indexed f n l)))) = length l.
Proof.
  induction l as [|x rest IH]; intros n Hout Hone; [reflexivity|].
  destruct (map_indexed_spec f g rest (n + 1)%nat Hout) as [_ Hrest].
  cbn [map_indexed]. unfold mbind, eff_bind. rewrite Hout. cbn [trace outcome].
  rewrite Hrest. cbn [trace outcome mret eff_ret].
  rewrite app_nil_r, flatten_app, List.filter_app, length_app, Hone, (IH _ Hout Hone).
  reflexivity.
Qed.

Lemma quiet_no_mutation (tr : list (Event Setter)) :
  Forall (λ ev, is_mutation ev = false) tr → List.filter is_mutation tr = [].
Proof.
  induction 1 as [|ev rest Hev _ IH]; [reflexivity|]. cbn. by rewrite Hev.
Qed.

Lemma handleBulkCopy_trace (st : State) (newClient : Assignee) (tk : string)
    (mutations : nat → result Template) (io : Refetch) (selected : list Template) :
  selectedClientTemplates st = Some selected →
  ∃ requests,
    Forall (λ ev, is_toast ev = false) (flatten requests)
    ∧ length (List.filter is_mutation (flatten requests)) = length selected
    ∧ trace (handleBulkCopy API st newClient (Ok tk) mutations io)
      = [GetAccessToken; ConsoleLog "Selected templates to copy:";
         ConsoleLog "New client to assign:"]
        ++ requests
        ++ match outcome (promise_all (C:=Setter) (imap (λ i _, mutations i) selected)) with
           | Ok _ => [SetState (setBulkCopyModalOpen false);
                      SetState (setSelectedClientTemplates None);
                      SetState (setNewClientSearchQuery "");
                      SetState (setNewClientSearchResults []);
                      Fork (trace (fetchTemplates API st io))]
           | Throw _ => [ConsoleError "Error bulk copying templates:";
                         ConsoleError "Error details:"]
           end.
Proof.
  intros Hsel. eexists. split; [|split]; cycle 2.
  - unfold handleBulkCopy. rewrite Hsel.
    pose proof (copy_outcome API newClient tk mutations selected 0) as Hout.
    unfold try_catch, mbind, eff_bind in *. cbn in *.
    rewrite Hout. cbn.
    destruct (outcome (promise_all (imap (λ i _, mutations i) selected)));
      cbn; rewrite promise_all_silent, ?app_nil_r; reflexivity.
  - apply (map_indexed_flat _ (λ i _, mutations i)); intros i x;
      [reflexivity | repeat constructor].
  - apply (map_indexed_requests _ (λ i _, mutations i)); intros i x; reflexivity.
Qed.

Lemma handleDeleteGroup_trace (st : State) (group : list Template) (tk : string)
    (mutations : nat → result Template) (io : Refetch) :
  ∃ requests,
    Forall (λ ev, is_toast ev = false) (flatten requests)
    ∧ length (List.filter is_mutation (flatten requests)) = length group
    ∧ trace (handleDeleteGroup API st group true (Ok tk) mutations io)
      = [WindowConfirm "Are you sure you want to delete all templates for this client?";
         GetAccessToken]
        ++ requests
        ++ match outcome (promise_all (C:=Setter) (imap (λ i _, mutations i) group)) with
           | Ok _ => [Fork (trace (fetchTemplates API st io))]
           | Throw e =>
               ConsoleError "Error deleting templates:"
               :: if has_response e then [ConsoleError "Error details:"] else []
           end.
Proof.
  eexists. split; [|split]; cycle 2.
  - unfold handleDeleteGroup.
    pose proof (map_indexed_spec (C:=Setter)
                  (λ i template,
                     request (AxiosDelete (TASK_TEMPLATES API +:+ "/"
                                             +:+ to_string (props template !! "_id")) tk)
                             (mutations i))
                  (λ i _, mutations i) group 0 ltac:(done)) as [_ Hout].
    unfold try_catch, mbind, eff_bind in *. cbn in *.
    rewrite Hout. cbn.
    destruct (outcome (promise_all (imap (λ i _, mutations i) group))) as [a|e];
      cbn; rewrite promise_all_silent, ?app_nil_r; [reflexivity|].
    destruct (has_response e); cbn; by rewrite ?app_nil_r.
  - apply (map_indexed_flat _ (λ i _, mutations i)); intros i x;
      [reflexivity | repeat constructor].
  - apply (map_indexed_requests _ (λ i _, mutations i)); intros i x; reflexivity.
Qed.

Lemma fetchTemplates_no_toast (st : State) (io : Refetch) :
  Forall (λ ev, is_toast ev = false) (flatten (trace (fetchTemplates API st io))).
Proof. destruct io as [[tk|e] [data|e']]; cbn; repeat constructor. Qed.

Ltac settle_events :=
  cbn;
  repeat match goal with
         | |- context [has_response ?e] => destruct (has_response e); cbn
         end;
  repeat constructor.

(** X23.  Outside the form, no operation ever shows a toast, whatever its
    requests are answered with. *)
Lemma no_toast_outside_submit (st : State) (op : Operation) (w : Settled) :
  op ≠ Submit →
  Forall (λ ev, is_toast ev = false) (flatten (trace (perform API st op w))).
Proof.
  intros Hop.
  destruct op as [|templateId currentStatus|template|templateId|newClient|group];
    [done|..]; cbn [perform].
  - unfold handleToggleActive.
    destruct (token w), (mutations w 0%nat), (refetch w) as [[tk'|e1] [d|e2]];
      settle_events.
  - unfold handleDuplicate.
    destruct (token w), (mutations w 0%nat), (refetch w) as [[tk'|e1] [d|e2]];
      settle_events.
  - unfold handleDelete.
    destruct (confirmed w), (token w), (mutations w 0%nat),
      (refetch w) as [[tk'|e1] [d|e2]]; settle_events.
  - destruct (token w) as [tk|e]; [|unfold handleBulkCopy; settle_events].
    destruct (selectedClientTemplates st) as [selected|] eqn:Hsel;
      [|unfold handleBulkCopy; rewrite Hsel; settle_events].
    destruct (handleBulkCopy_trace st newClient tk (mutations w) (refetch w) selected Hsel)
      as (requests & Hquiet & _ & ->).
    rewrite !flatten_app.
    apply Forall_app_2; [repeat constructor|]. apply Forall_app_2; [exact Hquiet|].
    destruct (outcome (promise_all _)); [|repeat constructor].
    change [SetState (setBulkCopyModalOpen false); SetState (setSelectedClientTemplates None);
            SetState (setNewClientSearchQuery ""); SetState (setNewClientSearchResults []);
            Fork (trace (fetchTemplates API st (refetch w)))]
      with ([SetState (setBulkCopyModalOpen false); SetState (setSelectedClientTemplates None);
             SetState (setNewClientSearchQuery ""); SetState (setNewClientSearchResults [])]
            ++ Fork (trace (fetchTemplates API st (refetch w))) :: []).
    rewrite flatten_app, flatten_fork.
    apply Forall_app_2; [repeat constructor|].
    apply Forall_app_2; [apply fetchTemplates_no_toast | constructor].
  - destruct (confirmed w); [|unfold handleDeleteGroup; settle_events].
    destruct (token w) as [tk|e]; [|unfold handleDeleteGroup; settle_events].
    destruct (handleDeleteGroup_trace st group tk (mutations w) (refetch w))
      as (requests & Hquiet & _ & ->).
    rewrite !flatten_app.
    apply Forall_app_2; [repeat constructor|]. apply Forall_app_2; [exact Hquiet|].
    destruct (outcome (promise_all _)) as [a|e].
    + rewrite flatten_fork. apply Forall_app_2; [apply fetchTemplates_no_toast | constructor].
    + destruct (has_response e); repeat constructor.
Qed.

(** No rejection escapes a handler: each one ends normally. *)
Lemma rejections_are_caught (st : State) (op : Operation) (w : Settled) :
  outcome (perform API st op w) = Ok tt.
Proof.
  destruct op as [|templateId currentStatus|template|templateId|newClient|group];
    cbn [perform].
  - unfold handleSubmit.
    destruct (isAdmin st), (token w) as [tk|e], (editingTemplate st),
      (mutations w 0%nat) as [m|e']; cbn; try reflexivity.
    all: match goal with |- context [status_is ?c ?e] => by destruct (status_is c e) end.
  - unfold handleToggleActive. by destruct (token w), (mutations w 0%nat).
  - unfold handleDuplicate. by destruct (token w), (mutations w 0%nat).
  - unfold handleDelete.
    destruct (confirmed w), (token w) as [tk|e], (mutations w 0%nat) as [m|e'];
      cbn; try reflexivity.
    all: match goal with |- context [has_response ?e] => by destruct (has_response e) end.
  - unfold handleBulkCopy.
    destruct (token w) as [tk|e]; [|reflexivity].
    destruct (selectedClientTemplates st) as [selected|]; [|reflexivity].
    pose proof (copy_outcome API newClient tk (mutations w) selected 0) as Hout.
    unfold try_catch, mbind, eff_bind in *. cbn in *. rewrite Hout. cbn.
    by destruct (outcome (promise_all (imap (λ i _, mutations w i) selected))).
  - unfold handleDeleteGroup.
    destruct (confirmed w); [|reflexivity].
    destruct (token w) as [tk|e]; [|cbn; by destruct (has_response e)].
    pose proof (map_indexed_spec (C:=Setter)
                  (λ i template,
                     request (AxiosDelete (TASK_TEMPLATES API +:+ "/"
                                             +:+ to_string (props template !! "_id")) tk)
                             (mutations w i))
                  (λ i _, mutations w i) group 0 ltac:(done)) as [_ Hout].
    unfold try_catch, mbind, eff_bind in *. cbn in *. rewrite Hout. cbn.
    destruct (outcome (promise_all (imap (λ i _, mutations w i) group))) as [a|e];
      cbn; [reflexivity | by destruct (has_response e)].
Qed.

Lemma promise_all_rejects {A} (promises : list (result A)) (i : nat) (e : exn) :
  promises !! i = Some (Throw e) →
  ∃ e', outcome (promise_all (C:=Setter) promises) = Throw e'.
Proof.
  revert i. induction promises as [|[a|e0] rest IH]; intros i Hi.
  - by rewrite lookup_nil in Hi.
  - destruct i as [|i]; [discriminate|]. cbn in Hi. destruct (IH i Hi) as [e' He'].
    exists e'. cbn. unfold mbind, eff_bind. by rewrite He'.
  - by exists e0.
Qed.

(** X24.  A rejected token or mutation request of an operation that was let past
    its guard is logged with [console.error]. *)
Lemma rejection_is_logged (st : State) (op : Operation) (w : Settled) (e : exn) (i : nat) :
  let_past st op w →
  token w = Throw e
  ∨ (resolved (token w) ∧ (i < requests_of st op)%nat ∧ mutations w i = Throw e) →
  Exists (λ ev, is_console_error ev = true) (trace (perform API st op w)).
Proof.
  intros Hguard Hrej.
  assert (Hfirst : resolved (token w) ∧ (i < 1)%nat ∧ mutations w i = Throw e
                   → mutations w 0%nat = Throw e).
  { intros (_ & Hi & Hm). by replace i with 0%nat in Hm by lia. }
  destruct op as [|templateId currentStatus|template|templateId|newClient|group];
    cbn [perform requests_of let_past] in *.
  - unfold handleSubmit. rewrite Hguard.
    destruct Hrej as [->|Hrej].
    { cbn. apply Exists_cons_tl, Exists_cons_hd. reflexivity. }
    rewrite (Hfirst Hrej). destruct Hrej as ([tk ->] & _).
    destruct (editingTemplate st); cbn;
      apply Exists_cons_tl, Exists_cons_tl, Exists_cons_hd; reflexivity.
  - unfold handleToggleActive.
    destruct Hrej as [->|Hrej].
    { cbn. apply Exists_cons_tl, Exists_cons_hd. reflexivity. }
    rewrite (Hfirst Hrej). destruct Hrej as ([tk ->] & _).
    cbn. apply Exists_cons_tl, Exists_cons_tl, Exists_cons_hd. reflexivity.
  - unfold handleDuplicate.
    destruct Hrej as [->|Hrej].
    { cbn. apply Exists_cons_tl, Exists_cons_hd. reflexivity. }
    rewrite (Hfirst Hrej). destruct Hrej as ([tk ->] & _).
    cbn. apply Exists_cons_tl, Exists_cons_tl, Exists_cons_hd. reflexivity.
  - unfold handleDelete. rewrite Hguard.
    destruct Hrej as [->|Hrej].
    { cbn. apply Exists_cons_tl, Exists_cons_tl, Exists_cons_hd. reflexivity. }
    rewrite (Hfirst Hrej). destruct Hrej as ([tk ->] & _).
    cbn. apply Exists_cons_tl, Exists_cons_tl, Exists_cons_tl, Exists_cons_hd. reflexivity.
  - destruct Hrej as [Htok|([tk Htok] & Hi & Hm)]; rewrite Htok.
    { cbn. apply Exists_cons_tl, Exists_cons_hd. reflexivity. }
    destruct (selectedClientTemplates st) as [selected|] eqn:Hsel; [|done].
    cbn [default] in Hi.
    destruct (handleBulkCopy_trace st newClient tk (mutations w) (refetch w) selected Hsel)
      as (requests & _ & _ & ->).
    destruct (lookup_lt_is_Some_2 selected i Hi) as [t Ht].
    destruct (promise_all_rejects (imap (λ i _, mutations w i) selected) i e) as [e' ->].
    { by rewrite list_lookup_imap, Ht, <- Hm. }
    apply Exists_app. right. apply Exists_app. right. apply Exists_cons_hd. reflexivity.
  - rewrite Hguard.
    destruct Hrej as [Htok|([tk Htok] & Hi & Hm)]; rewrite Htok.
    { cbn. apply Exists_cons_tl, Exists_cons_tl, Exists_cons_hd. reflexivity. }
    destruct (handleDeleteGroup_trace st group tk (mutations w) (refetch w))
      as (requests & _ & _ & ->).
    destruct (lookup_lt_is_Some_2 group i Hi) as [t Ht].
    destruct (promise_all_rejects (imap (λ i _, mutations w i) group) i e) as [e' ->].
    { by rewrite list_lookup_imap, Ht, <- Hm. }
    apply Exists_app. right. apply Exists_app. right. apply Exists_cons_hd. reflexivity.
Qed.

Ltac settle_count :=
  cbn;
  repeat match goal with
         | |- context [has_response ?e] => destruct (has_response e); cbn
         | |- context [status_is ?c ?e] => destruct (status_is c e); cbn
         end;
  lia.

(** X25.  No operation repeats a request: a single operation makes at most one
    mutation request, a bulk operation at most one per template, whatever
    the answers are. *)
Lemma no_retry (st : State) (op : Operation) (w : Settled) :
  (length (List.filter is_mutation (flatten (trace (perform API st op w))))
   ≤ requests_of st op)%nat.
Proof.
  assert (Hfetch : List.filter is_mutation
                     (flatten (trace (fetchTemplates API st (refetch w)))) = []).
  { apply quiet_no_mutation, fetchTemplates_quiet. }
  destruct op as [|templateId currentStatus|template|templateId|newClient|group];
    cbn [perform requests_of].
  - unfold handleSubmit.
    destruct (isAdmin st), (token w), (editingTemplate st), (mutations w 0%nat),
      (refetch w) as [[tk'|e1] [d|e2]]; settle_count.
  - unfold handleToggleActive.
    destruct (token w), (mutations w 0%nat), (refetch w) as [[tk'|e1] [d|e2]];
      settle_count.
  - unfold handleDuplicate.
    destruct (token w), (mutations w 0%nat), (refetch w) as [[tk'|e1] [d|e2]];
      settle_count.
  - unfold handleDelete.
    destruct (confirmed w), (token w), (mutations w 0%nat),
      (refetch w) as [[tk'|e1] [d|e2]]; settle_count.
  - destruct (token w) as [tk|e]; [|unfold handleBulkCopy; settle_count].
    destruct (selectedClientTemplates st) as [selected|] eqn:Hsel;
      [|unfold handleBulkCopy; rewrite Hsel; settle_count].
    destruct (handleBulkCopy_trace st newClient tk (mutations w) (refetch w) selected Hsel)
      as (requests & _ & Hcount & ->).
    rewrite !flatten_app, !List.filter_app, !length_app, Hcount. cbn [default].
    destruct (outcome (promise_all _)); [|cbn; lia].
    change [SetState (setBulkCopyModalOpen false); SetState (setSelectedClientTemplates None);
            SetState (setNewClientSearchQuery ""); SetState (setNewClientSearchResults []);
            Fork (trace (fetchTemplates API st (refetch w)))]
      with ([SetState (setBulkCopyModalOpen false); SetState (setSelectedClientTemplates None);
             SetState (setNewClientSearchQuery ""); SetState (setNewClientSearchResults [])]
            ++ Fork (trace (fetchTemplates API st (refetch w))) :: []).
    rewrite flatten_app, flatten_fork, !List.filter_app, Hfetch. cbn. lia.
  - destruct (confirmed w); [|unfold handleDeleteGroup; settle_count].
    destruct (token w) as [tk|e]; [|unfold handleDeleteGroup; settle_count].
    destruct (handleDeleteGroup_trace st group tk (mutations w) (refetch w))
      as (requests & _ & Hcount & ->).
    rewrite !flatten_app, !List.filter_app, !length_app, Hcount.
    destruct (outcome (promise_all _)) as [a|e].
    + rewrite flatten_fork, List.filter_app, Hfetch. cbn. lia.
    + destruct (has_response e); cbn; lia.
Qed.

(** C9 (the code departs from the claim).  A 403 on the PUT of the active
    switch is logged and nothing else: no toast.  The same answer to the
    POST of the form is logged and shown as a toast. *)
Theorem forbidden_toggle_shows_no_toast :
  let denied : result Template := Throw (AxiosError (Some 403)) in
  let io := sample_refetch [acme_one; acme_two] in
  trace (handleToggleActive sample_api acme_page (Some (VStr "t1")) (Some (VBool true))
           (Ok "token") denied io)
  = [ GetAccessToken;
      AxiosPut "/api/task-templates/t1" (sample_template "t1" false [dana; acme]) "token";
      ConsoleError "Error updating template:" ]
  ∧ trace (handleDelete sample_api acme_page (Some (VStr "t1")) true (Ok "token") denied io)
    = [ WindowConfirm "Are you sure you want to delete this template?";
        GetAccessToken;
        AxiosDelete "/api/task-templates/t1" "token";
        ConsoleError "Error deleting template:";
        ConsoleError "Error details:" ]
  ∧ trace (handleDuplicate sample_api acme_page acme_one (Ok "token") denied io)
    = [ GetAccessToken;
        AxiosPost "/api/task-templates/t1/duplicate" empty_object "token";
        ConsoleError "Error duplicating template:" ]
  ∧ trace (handleSubmit sample_api acme_page (Ok "token") denied io)
    = [ GetAccessToken;
        AxiosPost "/api/task-templates" initialFormData "token";
        ConsoleError "Error saving template:";
        ToastError "You do not have permission to perform this action" ].
Proof. repeat split; vm_compute; reflexivity. Qed.
End Failures.

(** * Further properties of the components *)

(** ** Expanding and collapsing *)

Section Expanding.
Import TemplatePage.
Context (API : ApiEndpoints).

(** X3.  Clicking the header of a group whose key the map holds flips that
    flag and no other; clicking it again gives the map back.  A key the map
    does not hold yet (and that no object inherits) becomes expanded. *)
Theorem toggleGroup_flips (st : State) (key : string) (b : bool) :
  expandedGroups st !! key = Some b →
  let once := run st (trace (toggleGroup key)) in
  let twice := run once (trace (toggleGroup key)) in
  expandedGroups once !! key = Some (negb b)
  ∧ (∀ other, other ≠ key → expandedGroups once !! other = expandedGroups st !! other)
  ∧ expandedGroups twice = expandedGroups st
  ∧ templates once = templates st
  ∧ ∀ st' fresh, expandedGroups st' !! fresh = None → inherited fresh = false →
      expandedGroups (run st' (trace (toggleGroup fresh))) !! fresh = Some true.
Proof.
  intros Hb once twice. subst twice once. destruct st as [ts io sq sr sa et eg ad fd bo sc nq nr].
  cbn in *. unfold not_expanded, get. rewrite Hb, lookup_insert_eq.
  split; [reflexivity|]. split; [|split; [|split]].
  - intros other Hne. by rewrite lookup_insert_ne.
  - rewrite insert_insert_eq, negb_involutive. by apply insert_id.
  - reflexivity.
  - intros st' fresh Hnone Hplain. destruct st'. cbn in *.
    unfold not_expanded, get. rewrite Hnone, Hplain. apply lookup_insert_eq.
Qed.

(** X4.  Whatever render the handler of a refetch belongs to, the answer
    never expands a group and never drops a key: a flag that is [true]
    afterwards was [true] before, every key of the map is still a key, a new
    key is the group key of a template of the response, and the list shown
    is the response. *)
Theorem refetch_never_expands (closure st : State) (tk : string) (data : list Template)
    (key : string) :
  let st' := run st (trace (fetchTemplates API closure
                              {| refetch_token := Ok tk; refetch_response := Ok data |})) in
  (expandedGroups st' !! key = Some true → expandedGroups st !! key = Some true)
  ∧ (is_Some (expandedGroups st !! key) → is_Some (expandedGroups st' !! key))
  ∧ (is_Some (expandedGroups st' !! key) →
     is_Some (expandedGroups st !! key) ∨ key ∈ groupKey <$> data)
  ∧ templates st' = data.
Proof.
  intros st'. subst st'.
  split; [|split; [|split]]; try rewrite fetchTemplates_expand;
    try rewrite lookup_union, newGroups_lookup.
  - case_bool_decide; [|by destruct (expandedGroups st !! key)].
    by destruct (expandedGroups st !! key).
  - intros [b Hb]. rewrite Hb. case_bool_decide; by eexists.
  - case_bool_decide as H; [intros _; right; by destruct H|].
    destruct (expandedGroups st !! key); [intros _; left; by eexists|].
    intros [x Hx]. discriminate.
  - by destruct st.
Qed.

(** X5.  A fetch whose token or whose GET is rejected changes nothing: the
    list, the expand state and the rest of the state of either template
    component are as before, and the failure is logged. *)
Theorem failed_fetch_keeps_state (closure st : State) (manager : ManagerTemplate.State)
    (io : Refetch) (e : exn) :
  refetch_token io = Throw e ∨ refetch_response io = Throw e →
  run st (trace (fetchTemplates API closure io)) = st
  ∧ ManagerTemplate.run manager (trace (ManagerTemplate.fetchTemplates API io)) = manager
  ∧ ConsoleError "Error fetching templates:" ∈ trace (fetchTemplates API closure io)
  ∧ ConsoleError "Error fetching templates:" ∈ trace (ManagerTemplate.fetchTemplates API io).
Proof.
  intros Hfail. destruct io as [[tk|e1] [data|e2]]; cbn in Hfail;
    destruct Hfail as [Hf|Hf]; try discriminate;
    (split; [reflexivity|]; split; [reflexivity|]; split; cbn;
     repeat first [apply list_elem_of_here | apply list_elem_of_further]).
Qed.
End Expanding.

(** A collapsed Acme group is expanded by one click. *)
Lemma toggleGroup_flips_witness :
  TemplatePage.expandedGroups acme_page !! "Acme" = Some true
  ∧ TemplatePage.expandedGroups
      (TemplatePage.run acme_page (trace (TemplatePage.toggleGroup "Acme"))) !! "Acme"
    = Some false.
Proof.
  split; [reflexivity|].
  exact (proj1 (toggleGroup_flips acme_page "Acme" true eq_refl)).
Defined.

(** The GET of a refetch is answered with a 500. *)
Lemma failed_fetch_keeps_state_witness :
  TemplatePage.run acme_page
    (trace (TemplatePage.fetchTemplates sample_api acme_page
              {| refetch_token := Ok "token";
                 refetch_response := Throw (AxiosError (Some 500)) |}))
  = acme_page.
Proof.
  exact (proj1 (failed_fetch_keeps_state sample_api acme_page acme_page manager_page
                  {| refetch_token := Ok "token";
                     refetch_response := Throw (AxiosError (Some 500)) |}
                  (AxiosError (Some 500)) (or_intror eq_refl))).
Defined.

(** ** The template form *)

Section TemplateForm.
Import TemplatePage.
Context (API : ApiEndpoints).

Lemma filter_app_new (l : list Assignee) (a : Assignee) :
  a_id a ∉ ids l →
  List.filter (λ x, negb (String.eqb (a_id x) (a_id a))) (l ++ [a]) = l.
Proof.
  intros Hni. rewrite List.filter_app, filter_other_ids by exact Hni.
  cbn. rewrite String.eqb_refl. cbn. apply app_nil_r.
Qed.

(** X6.  Selecting a candidate with a new id and then removing it, each
    handler being of the render that shows it, gives back the selection in
    both template forms; the form's assignees are that list again. *)
Theorem select_then_remove (st : State) (manager : ManagerTemplate.State)
    (assignee : Assignee) (selected : list Assignee) :
  a_id assignee ∉ ids (selectedAssignees st) →
  ManagerTemplate.assignees_of_form manager = Some selected →
  a_id assignee ∉ ids selected →
  let st1 := run st (trace (handleSelectAssignee st assignee)) in
  let st2 := run st1 (trace (handleRemoveAssignee st1 (a_id assignee))) in
  let manager1 :=
    ManagerTemplate.run manager (trace (ManagerTemplate.handleSelectAssignee manager assignee)) in
  let manager2 :=
    ManagerTemplate.run manager1
      (trace (ManagerTemplate.handleRemoveAssignee manager1 (a_id assignee))) in
  selectedAssignees st1 = selectedAssignees st ++ [assignee]
  ∧ selectedAssignees st2 = selectedAssignees st
  ∧ assignees (formData st2) = Some (selectedAssignees st)
  ∧ ManagerTemplate.assignees_of_form manager2 = Some selected.
Proof.
  intros Hnew Hform Hnew' st1 st2 manager1 manager2.
  subst st2 st1 manager2 manager1.
  unfold handleSelectAssignee, ManagerTemplate.handleSelectAssignee,
    ManagerTemplate.assignees_of_form in *.
  rewrite (find_id_None _ _ Hnew), Hform, (find_id_None _ _ Hnew').
  destruct st as [ts io sq sr sa et eg ad fd bo sc nq nr], manager as [mts mio mfd msr msq].
  cbn in *. rewrite !filter_app_new by done. done.
Qed.

(** X7.  The selection never holds an id twice and the form never lags
    behind it: if the form's assignees are the selection and no id repeats,
    the same is true after a select and after a remove, and a removed id is
    gone. *)
Theorem selection_invariant (st : State) (assignee : Assignee) (assigneeId : string) :
  form_in_sync st →
  NoDup (ids (selectedAssignees st)) →
  let chosen := run st (trace (handleSelectAssignee st assignee)) in
  let removed := run st (trace (handleRemoveAssignee st assigneeId)) in
  form_in_sync chosen ∧ NoDup (ids (selectedAssignees chosen))
  ∧ a_id assignee ∈ ids (selectedAssignees chosen)
  ∧ form_in_sync removed ∧ NoDup (ids (selectedAssignees removed))
  ∧ assigneeId ∉ ids (selectedAssignees removed).
Proof.
  intros Hsync Hnd chosen removed. subst chosen removed.
  unfold form_in_sync, handleSelectAssignee, handleRemoveAssignee in *.
  destruct (decide (a_id assignee ∈ ids (selectedAssignees st))) as [Hin|Hni].
  - destruct (find_id_Some _ _ Hin) as [a ->].
    destruct st as [ts io sq sr sa et eg ad fd bo sc nq nr]. cbn in *.
    repeat split; try done.
    + by apply filter_keeps_NoDup.
    + apply filter_drops_id.
  - rewrite (find_id_None _ _ Hni).
    destruct st as [ts io sq sr sa et eg ad fd bo sc nq nr]. cbn in *.
    repeat split; try done.
    + unfold ids in *. rewrite fmap_app. apply NoDup_app. split; [done|].
      split; [|apply NoDup_singleton].
      intros i Hi Hi'. apply list_elem_of_singleton in Hi'. cbn in Hi'. by subst.
    + unfold ids. rewrite fmap_app. apply elem_of_app. right. apply list_elem_of_here.
    + by apply filter_keeps_NoDup.
    + apply filter_drops_id.
Qed.

Lemma copy_props_lookup (source : Template) (keys : list string) :
  ∀ (target : gmap string value) (key : string),
  foldl (copy_prop source) target keys !! key
  = if decide (key ∈ keys) then props source !! key else target !! key.
Proof.
  induction keys as [|k rest IH]; intros target key.
  - cbn. case_decide as H; [by apply elem_of_nil in H | reflexivity].
  - cbn [foldl]. rewrite IH.
    destruct (decide (key ∈ rest)) as [Hin|Hni].
    + rewrite decide_True by (by apply list_elem_of_further). reflexivity.
    + destruct (decide (key = k)) as [->|Hne].
      * rewrite decide_True by apply list_elem_of_here.
        unfold copy_prop. destruct (props source !! k) eqn:Hk.
        -- apply lookup_insert_eq.
        -- apply lookup_delete_eq.
      * rewrite decide_False by (rewrite elem_of_cons; tauto).
        unfold copy_prop. destruct (props source !! k).
        -- by apply lookup_insert_ne.
        -- by apply lookup_delete_ne.
Qed.

Lemma updateData_unchanged (template : Template) :
  updateData template
    {| assignees := assignees template;
       props := foldl (copy_prop template) ∅ form_fields |}
  = template.
Proof.
  destruct template as [l p]. unfold updateData. cbn [assignees props]. f_equal.
  apply map_eq. intros key. rewrite copy_props_lookup. cbn [props].
  case_decide as Hin; [|reflexivity].
  rewrite copy_props_lookup. cbn [props]. by rewrite decide_True.
Qed.

(** X8.  Opening a template for editing and saving without a change sends
    one PUT, to the template's own id, whose body is the template as it was
    fetched: no property is lost or invented on the way through the form.
    Nothing is posted. *)
Theorem edit_save_unchanged (st : State) (template : Template) (tk : string)
    (mutation : result Template) (io : Refetch) :
  isAdmin st = true →
  let editing := run st (trace (handleEdit template)) in
  put_requests (trace (handleSubmit API editing (Ok tk) mutation io))
  = [(TASK_TEMPLATES API +:+ "/" +:+ to_string (props template !! "_id"), template)]
  ∧ post_requests (trace (handleSubmit API editing (Ok tk) mutation io)) = []
  ∧ isOpen editing = true
  ∧ selectedAssignees editing = default [] (assignees template).
Proof.
  intros Hadmin editing. subst editing.
  destruct st as [ts io' sq sr sa et eg ad fd bo sc nq nr]. cbn in Hadmin. subst ad.
  unfold handleSubmit. cbn -[updateData form_fields copy_prop].
  rewrite updateData_unchanged.
  destruct mutation as [a|e], io as [[tk'|e1] [data|e2]]; cbn;
    try destruct (status_is 403 e); done.
Qed.
End TemplateForm.

(** Acme selected in the empty forms of the sample pages, then removed. *)
Lemma select_then_remove_witness :
  TemplatePage.selectedAssignees
    (TemplatePage.run acme_page (trace (TemplatePage.handleSelectAssignee acme_page acme)))
  = [acme].
Proof.
  exact (proj1 (select_then_remove acme_page manager_page acme []
                  (not_elem_of_nil _) eq_refl (not_elem_of_nil _))).
Defined.

(** The sample page has an empty selection and an empty form. *)
Lemma selection_invariant_witness :
  form_in_sync (TemplatePage.run acme_page
                  (trace (TemplatePage.handleSelectAssignee acme_page acme))).
Proof.
  exact (proj1 (selection_invariant acme_page acme "c1" eq_refl NoDup_nil_2)).
Defined.

(** The first template of the sample page, edited and saved as it is. *)
Lemma edit_save_unchanged_witness :
  put_requests
    (trace (TemplatePage.handleSubmit sample_api
              (TemplatePage.run acme_page (trace (TemplatePage.handleEdit acme_one)))
              (Ok "token") (Ok acme_one) (sample_refetch [acme_one; acme_two])))
  = [("/api/task-templates/t1", acme_one)].
Proof.
  exact (proj1 (edit_save_unchanged sample_api acme_page acme_one "token" (Ok acme_one)
                  (sample_refetch [acme_one; acme_two]) eq_refl)).
Defined.

(** ** Guards and what follows a save *)

Section Guards.
Import TemplatePage.
Context (API : ApiEndpoints).

(** X9.  An operation stopped at its guard (the form submitted by a user
    who is not an admin, a delete whose dialog is dismissed) asks for no
    token, sends no request and leaves the state as it is; the refused form
    shows its toast. *)
Theorem refused_operation_is_inert (st : State) (op : Operation) (w : Settled) :
  refused st op w →
  Forall (λ ev, is_request ev = false ∧ ev ≠ GetAccessToken)
         (flatten (trace (perform API st op w)))
  ∧ run st (trace (perform API st op w)) = st
  ∧ (op = Submit →
     trace (perform API st op w)
     = [ToastError "You do not have permission to create or edit templates"]).
Proof.
  intros Href.
  destruct op as [|templateId currentStatus|template|templateId|newClient|group];
    cbn [refused perform] in *; try done.
  - unfold handleSubmit. rewrite Href. cbn. repeat split; by repeat constructor.
  - unfold handleDelete. rewrite Href. cbn. repeat split; try done; by repeat constructor.
  - unfold handleDeleteGroup. rewrite Href. cbn. repeat split; try done; by repeat constructor.
Qed.

(** X10.  After a save that goes through, the modal is closed and the form
    is the empty form again: initial fields, no selection, no template being
    edited; the list is the one the refetch brought, or the old one when the
    refetch failed. *)
Theorem submit_resets_form (st : State) (tk : string) (answer : Template) (io : Refetch) :
  isAdmin st = true →
  let st' := run st (trace (handleSubmit API st (Ok tk) (Ok answer) io)) in
  isOpen st' = false
  ∧ formData st' = initialFormData
  ∧ selectedAssignees st' = []
  ∧ editingTemplate st' = None
  ∧ templates st' = match refetch_token io, refetch_response io with
                    | Ok _, Ok data => data
                    | _, _ => templates st
                    end.
Proof.
  intros Hadmin st'. subst st'. unfold handleSubmit. rewrite Hadmin.
  destruct st as [ts io' sq sr sa et eg ad fd bo sc nq nr].
  destruct et, io as [[tk'|e1] [data|e2]]; cbn; done.
Qed.

(** X11.  A switch flipped for an id that no template of the local list
    carries still sends its PUT, and the body is then nothing but
    [is_active]: the record is not found and an empty object is spread. *)
Theorem toggle_unknown_id (st : State) (templateId currentStatus : option value)
    (tk : string) (mutation : result Template) (io : Refetch) :
  templateId ∉ (λ t, props t !! "_id") <$> templates st →
  put_requests (trace (handleToggleActive API st templateId currentStatus
                         (Ok tk) mutation io))
  = [(TASK_TEMPLATES API +:+ "/" +:+ to_string templateId,
      {| assignees := None;
         props := {[ "is_active" := VBool (negb (truthy currentStatus)) ]} |})].
Proof.
  intros Hni.
  assert (Hfind : List.find (λ t, strict_eq (props t !! "_id") templateId) (templates st)
                  = None).
  { induction (templates st) as [|t rest IH]; [reflexivity|].
    cbn [fmap list_fmap] in Hni. apply not_elem_of_cons in Hni as [Hne Hni].
    cbn [List.find]. unfold strict_eq at 1. rewrite bool_decide_false by congruence.
    by apply IH. }
  unfold handleToggleActive, togglePayload. rewrite Hfind.
  destruct mutation as [a|e], io as [[tk'|e1] [data|e2]]; reflexivity.
Qed.
End Guards.

(** A visitor who is not an admin submits the form. *)
Lemma refused_operation_is_inert_witness :
  TemplatePage.run TemplatePage.initialState
    (trace (perform sample_api TemplatePage.initialState Submit (all_resolved [])))
  = TemplatePage.initialState.
Proof.
  exact (proj1 (proj2 (refused_operation_is_inert sample_api TemplatePage.initialState
                         Submit (all_resolved []) eq_refl))).
Defined.

(** The admin of the sample page creates a template. *)
Lemma submit_resets_form_witness :
  TemplatePage.isOpen
    (TemplatePage.run acme_page
       (trace (TemplatePage.handleSubmit sample_api acme_page (Ok "token") (Ok acme_one)
                 (sample_refetch [acme_one]))))
  = false.
Proof.
  exact (proj1 (submit_resets_form sample_api acme_page "token" acme_one
                  (sample_refetch [acme_one]) eq_refl)).
Defined.

(** The sample page has no template with id [t9]. *)
Lemma toggle_unknown_id_witness :
  put_requests (trace (TemplatePage.handleToggleActive sample_api acme_page
                         (Some (VStr "t9")) (Some (VBool true)) (Ok "token")
                         (Ok acme_one) (sample_refetch [])))
  = [("/api/task-templates/t9",
      {| assignees := None; props := {[ "is_active" := VBool false ]} |})].
Proof.
  apply (toggle_unknown_id sample_api acme_page (Some (VStr "t9")) (Some (VBool true))
           "token" (Ok acme_one) (sample_refetch [])).
  apply (bool_decide_unpack _). vm_compute. exact I.
Defined.

(** ** Bulk operations that fail half way *)

Section BulkFailure.
Import TemplatePage.
Context (API : ApiEndpoints).

Lemma run_inert (st : State) (tr : list (Event Setter)) :
  Forall inert tr → run st tr = st.
Proof.
  unfold run. induction 1 as [|ev rest Hev _ IH]; [reflexivity|].
  cbn [foldl]. by destruct ev.
Qed.

Lemma map_indexed_inert {A B} (f : nat → A → Eff Setter B) (g : nat → A → B)
    (l : list A) : ∀ n,
  (∀ i x, outcome (f i x) = Ok (g i x)) →
  (∀ i x, Forall inert (trace (f i x))) →
  Forall inert (trace (map_indexed f n l)).
Proof.
  induction l as [|x rest IH]; intros n Hout Hin; [constructor|].
  destruct (map_indexed_spec f g rest (n + 1)%nat Hout) as [_ Hrest].
  cbn [map_indexed]. unfold mbind, eff_bind. rewrite Hout. cbn [trace outcome].
  rewrite Hrest. cbn [trace outcome mret eff_ret].
  rewrite app_nil_r. apply Forall_app. split; [apply Hin | by apply IH].
Qed.

Lemma bulk_copy_shape (st : State) (newClient : Assignee) (tk : string)
    (mutations : nat → result Template) (io : Refetch) (selected : list Template)
    (i : nat) (e : exn) :
  selectedClientTemplates st = Some selected →
  (i < length selected)%nat → mutations i = Throw e →
  ∃ requests,
    Forall inert requests
    ∧ length (List.filter is_mutation (flatten requests)) = length selected
    ∧ trace (handleBulkCopy API st newClient (Ok tk) mutations io)
      = [GetAccessToken; ConsoleLog "Selected templates to copy:";
         ConsoleLog "New client to assign:"]
        ++ requests
        ++ [ConsoleError "Error bulk copying templates:"; ConsoleError "Error details:"].
Proof.
  intros Hsel Hi Hm. eexists. split; [|split]; cycle 2.
  - unfold handleBulkCopy. rewrite Hsel.
    pose proof (copy_outcome API newClient tk mutations selected 0) as Hout.
    destruct (lookup_lt_is_Some_2 selected i Hi) as [t Ht].
    destruct (promise_all_rejects (imap (λ i _, mutations i) selected) i e) as [e' He'].
    { by rewrite list_lookup_imap, Ht, <- Hm. }
    unfold try_catch, mbind, eff_bind in *. cbn in *.
    rewrite Hout. cbn. rewrite He'. cbn. by rewrite promise_all_silent, ?app_nil_r.
  - apply (map_indexed_inert _ (λ i _, mutations i)); intros j x;
      [reflexivity | repeat constructor].
  - apply (map_indexed_requests _ (λ i _, mutations i)); intros j x; reflexivity.
Qed.

Lemma delete_group_shape (st : State) (group : list Template) (tk : string)
    (mutations : nat → result Template) (io : Refetch) (i : nat) (e : exn) :
  (i < length group)%nat → mutations i = Throw e →
  ∃ requests logged,
    Forall inert requests
    ∧ length (List.filter is_mutation (flatten requests)) = length group
    ∧ Forall (λ ev, is_console_error ev = true) logged
    ∧ trace (handleDeleteGroup API st group true (Ok tk) mutations io)
      = [WindowConfirm "Are you sure you want to delete all templates for this client?";
         GetAccessToken]
        ++ requests ++ ConsoleError "Error deleting templates:" :: logged.
Proof.
  intros Hi Hm.
  destruct (lookup_lt_is_Some_2 group i Hi) as [t Ht].
  destruct (promise_all_rejects (imap (λ i _, mutations i) group) i e)
    as [e' He'].
  { by rewrite list_lookup_imap, Ht, <- Hm. }
  eexists. exists (if has_response e' then [ConsoleError "Error details:"] else []).
  split; [|split; [|split]]; cycle 3.
  - unfold handleDeleteGroup.
    pose proof (map_indexed_spec (C:=Setter)
                  (λ i template,
                     request (AxiosDelete (TASK_TEMPLATES API +:+ "/"
                                             +:+ to_string (props template !! "_id")) tk)
                             (mutations i))
                  (λ i _, mutations i) group 0 ltac:(done)) as [_ Hout].
    unfold try_catch, mbind, eff_bind in *. cbn in *.
    rewrite Hout. cbn. rewrite He'. cbn. rewrite promise_all_silent, ?app_nil_r.
    destruct (has_response e'); cbn; by rewrite ?app_nil_r.
  - apply (map_indexed_inert _ (λ i _, mutations i)); intros j x;
      [reflexivity | repeat constructor].
  - apply (map_indexed_requests _ (λ i _, mutations i)); intros j x; reflexivity.
  - destruct (has_response e'); repeat constructor.
Qed.

(** X12.  When one create of a bulk copy, or one delete of a group delete,
    is rejected, the request of every template has gone out all the same
    (nothing is rolled back), no refetch is forked and no state is set: the
    copy modal stays open and the list keeps showing what it showed.  The
    failure is logged. *)
Theorem bulk_failure_no_rollback (st : State) (newClient : Assignee) (group : list Template)
    (tk : string) (mutations : nat → result Template) (io : Refetch)
    (selected : list Template) (i j : nat) (e e' : exn) :
  selectedClientTemplates st = Some selected →
  (i < length selected)%nat → mutations i = Throw e →
  (j < length group)%nat → mutations j = Throw e' →
  let copy := trace (handleBulkCopy API st newClient (Ok tk) mutations io) in
  let delete := trace (handleDeleteGroup API st group true (Ok tk) mutations io) in
  length (List.filter is_mutation (flatten copy)) = length selected
  ∧ Forall inert copy ∧ run st copy = st
  ∧ ConsoleError "Error bulk copying templates:" ∈ copy
  ∧ length (List.filter is_mutation (flatten delete)) = length group
  ∧ Forall inert delete ∧ run st delete = st
  ∧ ConsoleError "Error deleting templates:" ∈ delete.
Proof.
  intros Hsel Hi Hm Hj Hm' copy delete. subst copy delete.
  destruct (bulk_copy_shape st newClient tk mutations io selected i e Hsel Hi Hm)
    as (requests & Hinert & Hcount & ->).
  destruct (delete_group_shape st group tk mutations io j e' Hj Hm')
    as (requests' & logged & Hinert' & Hcount' & Hlogged & ->).
  assert (Hcopy : Forall inert
            ([GetAccessToken; ConsoleLog "Selected templates to copy:";
              ConsoleLog "New client to assign:"] ++ requests
             ++ [ConsoleError "Error bulk copying templates:";
                 ConsoleError "Error details:"])).
  { apply Forall_app. split; [repeat constructor|].
    apply Forall_app. split; [exact Hinert | repeat constructor]. }
  assert (Hdelete : Forall inert
            ([WindowConfirm "Are you sure you want to delete all templates for this client?";
              GetAccessToken] ++ requests'
             ++ ConsoleError "Error deleting templates:" :: logged)).
  { apply Forall_app. split; [repeat constructor|].
    apply Forall_app. split; [exact Hinert'|]. constructor; [exact I|].
    eapply Forall_impl; [exact Hlogged|]. intros ev Hev. by destruct ev. }
  assert (Hquiet : List.filter is_mutation (flatten logged) = []).
  { clear -Hlogged. induction Hlogged as [|ev rest Hev _ IH]; [reflexivity|].
    destruct ev; try done; exact IH. }
  repeat split.
  - rewrite !flatten_app, !List.filter_app, !length_app, Hcount. cbn. lia.
  - exact Hcopy.
  - by apply run_inert.
  - rewrite !elem_of_app. right. right. apply list_elem_of_here.
  - rewrite !flatten_app, !List.filter_app, !length_app, Hcount'.
    change (flatten (ConsoleError "Error deleting templates:" :: logged))
      with (ConsoleError (C:=Setter) "Error deleting templates:" :: flatten logged).
    cbn [List.filter is_mutation]. rewrite Hquiet. cbn. lia.
  - exact Hdelete.
  - by apply run_inert.
  - rewrite !elem_of_app. right. right. apply list_elem_of_here.
Qed.
End BulkFailure.

(** Both creates of a copy of the two Acme templates are rejected. *)
Lemma bulk_failure_no_rollback_witness :
  TemplatePage.run acme_page
    (trace (TemplatePage.handleBulkCopy sample_api acme_page beta (Ok "token")
              (λ _, rejected) (sample_refetch [])))
  = acme_page.
Proof.
  pose proof (bulk_failure_no_rollback sample_api acme_page beta [acme_one] "token"
                (λ _, rejected) (sample_refetch []) [acme_one; acme_two] 0 0
                (AxiosError None) (AxiosError None) eq_refl
                ltac:(cbn; lia) eq_refl ltac:(cbn; lia) eq_refl)
    as (_ & _ & Hrun & _).
  exact Hrun.
Defined.

(** ** Searching *)

Section Searching.
Context (API : ApiEndpoints).

(** X13.  The client search of the bulk-copy modal never shows anything
    but clients, whatever is typed and whatever the server answers: after a
    keystroke the candidates are the client entries of the response, in its
    order, when the text has two characters or more and both promises
    resolve, and none otherwise. *)
Theorem client_search_shows_clients (st : TemplatePage.State) (text : string)
    (tok : result string) (response : result (option (list Assignee))) :
  let shown :=
    TemplatePage.newClientSearchResults
      (TemplatePage.run st
         (trace (TemplatePage.handleNewClientSearchChange API st text tok response))) in
  Forall (λ a, a_type a = "client") shown
  ∧ shown = (if (2 <=? String.length text)%nat
             then match tok, response with
                  | Ok _, Ok (Some found) => List.filter is_client found
                  | _, _ => []
                  end
             else []).
Proof.
  intros shown.
  assert (Hshown : shown = (if (2 <=? String.length text)%nat
             then match tok, response with
                  | Ok _, Ok (Some found) => List.filter is_client found
                  | _, _ => []
                  end
             else [])).
  { subst shown. unfold TemplatePage.handleNewClientSearchChange, TemplatePage.searchClients.
    destruct text as [|c1 [|c2 rest]]; [by destruct st | by destruct st |].
    cbn [String.length Nat.leb String.eqb].
    destruct tok as [tk|e], response as [[found|]|e'], st; reflexivity. }
  split; [|exact Hshown]. rewrite Hshown.
  destruct (2 <=? String.length text)%nat; [|constructor].
  destruct tok as [tk|e]; [|constructor].
  destruct response as [[found|]|e']; try constructor.
  apply Forall_forall. intros a Ha. apply list_elem_of_In, filter_In in Ha as [_ Ha].
  unfold is_client in Ha. by apply String.eqb_eq in Ha.
Qed.


(** X15.  The task modal never offers an assignee whose id the form
    already holds: every option shown after a search comes from the response
    and has an id that is not in the form of the render that searched. *)
Theorem modal_search_excludes_selected (modal : TaskModal.State) (query : string)
    (tok : result string) (response : result (option (list Assignee))) (o : Assignee) :
  o ∈ TaskModal.assigneeOptions
        (TaskModal.run modal
           (trace (TaskModal.handleAssigneeSearch API modal query tok response))) →
  (a_id o ∉ ids (TaskModal.form_assignees (TaskModal.formData modal)))
  ∧ ∃ found, response = Ok (Some found) ∧ o ∈ found.
Proof.
  unfold TaskModal.handleAssigneeSearch.
  destruct ((2 <=? String.length query)%nat);
    [|destruct modal; cbn; intros H; apply elem_of_nil in H; contradiction].
  destruct tok as [tk|e], response as [[found|]|e'], modal as [fd ao cd]; cbn;
    intros Hin; try (apply elem_of_nil in Hin; contradiction).
  apply list_elem_of_In, filter_In in Hin as [Hfound Hnew].
  split; [|exists found; split; [reflexivity | by apply list_elem_of_In]].
  intros Hid. unfold ids in Hid. apply list_elem_of_fmap in Hid as (x & Hx & Hxin).
  apply negb_true_iff in Hnew.
  assert (Hex : existsb (λ existing, String.eqb (a_id existing) (a_id o))
                        (TaskModal.form_assignees fd) = true).
  { apply existsb_exists. exists x. split; [by apply list_elem_of_In|].
    rewrite Hx. apply String.eqb_refl. }
  congruence.
Qed.
End Searching.


(** The modal that holds Acme and Dana searches and is answered with Acme
    and Beta: Beta is offered. *)
Lemma modal_search_excludes_selected_witness :
  a_id beta ∉ ids (TaskModal.form_assignees (TaskModal.formData modal_two)).
Proof.
  refine (proj1 (modal_search_excludes_selected sample_api modal_two "be" (Ok "token")
                   (Ok (Some [acme; beta])) beta _)).
  cbn. apply list_elem_of_here.
Defined.

(** ** Completing a task *)

Section Completing.
Import TaskModal.

(** X16.  On the values the hours field steps through, the halves, the
    decomposition loses no time: with [k] half hours and [z] minutes in the
    form, the posted entry has [k / 2] hours and 30 minutes for an odd [k]
    plus [z], so that sixty times its hours plus its minutes is the time
    entered.  Off the halves a minute can be lost to the rounding of the
    product: 2.175 hours are posted as 2 hours 10 minutes, 130 minutes,
    while [Math.round(2.175 * 60)] is 131. *)
Theorem decompose_half_steps (API : ApiEndpoints) (st : State) (today : string)
    (task : Template) (tk : string) (posted updated : result Template) (k z : Z) :
  hours (completionData st) = half k →
  minutes (completionData st) = Number.Int z →
  0 ≤ k < 2 ^ 53 → Z.abs z < 2 ^ 52 →
  (∃ entry hrs mins,
     post_requests (trace (handleComplete API st today task (Ok tk) posted updated))
     = [(TIMESHEET_ENTRIES API, entry)]
     ∧ props entry !! "hours" = Some (VNum hrs)
     ∧ props entry !! "minutes" = Some (VNum mins)
     ∧ hrs = k / 2
     ∧ mins = 30 * (k mod 2) + z
     ∧ 2 * (60 * hrs + mins) = 60 * k + 2 * z)
  ∧ (∀ st', hours (completionData st') = decimal 2175 3
     → minutes (completionData st') = Number.Int 0
     → ∃ entry,
         post_requests (trace (handleComplete API st' today task (Ok tk) posted updated))
         = [(TIMESHEET_ENTRIES API, entry)]
         ∧ props entry !! "hours" = Some (VNum 2)
         ∧ props entry !! "minutes" = Some (VNum 10)
         ∧ Number.Math_round (Number.mul (decimal 2175 3) (Number.of_Z 60))
           = Number.Int 131).
Proof.
  intros Hh Hz Hk Hlz. split.
  - exists (timesheetEntry today task (completionData st)), (k / 2), (30 * (k mod 2) + z).
    split; [apply handleComplete_posts|].
    destruct (timesheetEntry_numbers today task (completionData st)) as [-> ->].
    destruct (completionData st) as [h w n]. cbn [hours minutes] in Hh, Hz. subst h w.
    rewrite decompose_half by done. repeat split.
    pose proof (Z.div_mod k 2 ltac:(lia)). lia.
  - intros st' Hh' Hz'. exists (timesheetEntry today task (completionData st')).
    split; [apply handleComplete_posts|].
    destruct (timesheetEntry_numbers today task (completionData st')) as [-> ->].
    destruct (completionData st') as [h w n]. cbn [hours minutes] in Hh', Hz'. subst h w.
    repeat split; vm_compute; reflexivity.
Qed.

(** X17.  The two writes of a completion are made one after the other and
    nothing undoes the first: the task is sent as complete only after the
    timesheet entry was accepted, the parent is called back ([onSubmit],
    then [onClose]) only when both were, and in every other case the
    failure is logged once and the modal stays as it is; so a rejected
    status update leaves a timesheet entry behind for a task still open. *)
Theorem completion_writes_in_order (API : ApiEndpoints) (st : State) (today : string)
    (task : Template) (tk : string) (posted updated : result Template) :
  let tr := trace (handleComplete API st today task (Ok tk) posted updated) in
  length (post_requests tr) = 1%nat
  ∧ put_requests tr
    = match posted with
      | Ok _ => [(TASKS API +:+ "/" +:+ to_string (props task !! "_id"),
                  with_prop "completion_notes" (VStr (notes (completionData st)))
                    (with_prop "status" (VStr "complete") task))]
      | Throw _ => []
      end
  ∧ prop_calls tr = match posted, updated with
                    | Ok _, Ok _ => ["onSubmit"; "onClose"]
                    | _, _ => []
                    end
  ∧ List.filter is_console_error tr
    = match posted, updated with
      | Ok _, Ok _ => []
      | _, _ => [ConsoleError "Error completing task:"]
      end
  ∧ run st tr = st.
Proof.
  intros tr. subst tr. unfold handleComplete.
  destruct posted, updated, st; repeat split; reflexivity.
Qed.

End Completing.

(** Three half hours and twenty minutes are posted as 1 hour 50 minutes. *)
Lemma decompose_half_steps_witness :
  ∃ entry hrs mins,
    post_requests
      (trace (TaskModal.handleComplete sample_api
                (completing (half 3) (Number.Int 20)) "2024-05-01" acme_one
                (Ok "token") (Ok empty_object) (Ok empty_object)))
    = [(TIMESHEET_ENTRIES sample_api, entry)]
    ∧ props entry !! "hours" = Some (VNum hrs)
    ∧ props entry !! "minutes" = Some (VNum mins)
    ∧ hrs = 3 / 2
    ∧ mins = 30 * (3 mod 2) + 20
    ∧ 2 * (60 * hrs + mins) = 60 * 3 + 2 * 20.
Proof.
  refine (proj1 (decompose_half_steps sample_api (completing (half 3) (Number.Int 20))
                   "2024-05-01" acme_one "token" (Ok empty_object) (Ok empty_object)
                   3 20 _ _ _ _)).
  - reflexivity.
  - reflexivity.
  - lia.
  - cbn. lia.
Defined.

(** ** The form of the task modal *)

Section ModalForm.
Import TaskModal.

Lemma existsb_eqb_elem (l : list string) (s : string) :
  existsb (String.eqb s) l = true ↔ s ∈ l.
Proof.
  rewrite existsb_exists. split.
  - intros (x & Hx & Heq). apply String.eqb_eq in Heq. subst. by apply list_elem_of_In.
  - intros Hin. exists s. split; [by apply list_elem_of_In | apply String.eqb_refl].
Qed.

Lemma filter_other_strings (l : list string) (s g : string) :
  g ∈ List.filter (λ x, negb (String.eqb x s)) l ↔ g ∈ l ∧ g ≠ s.
Proof.
  rewrite !list_elem_of_In, filter_In, negb_true_iff.
  destruct (String.eqb_spec g s); split; intros [H1 H2]; split; congruence.
Qed.

Lemma filter_absent_string (l : list string) (s : string) :
  s ∉ l → List.filter (λ x, negb (String.eqb x s)) l = l.
Proof.
  induction l as [|x rest IH]; intros Hni; [reflexivity|].
  apply not_elem_of_cons in Hni as [Hne Hni]. cbn [List.filter].
  destruct (String.eqb_spec x s); [congruence|]. cbn. by rewrite IH.
Qed.

(** X18.  Ticking a group's box toggles exactly that group: afterwards
    the group is visible if and only if it was not, every other group is as
    it was, and ticking a group that was not visible twice gives the list
    back. *)
Theorem visibility_toggle (visible_to : list string) (group : string) :
  let after := handleGroupVisibilityChange visible_to group in
  (group ∈ after ↔ group ∉ visible_to)
  ∧ (∀ other, other ≠ group → (other ∈ after ↔ other ∈ visible_to))
  ∧ (group ∉ visible_to → handleGroupVisibilityChange after group = visible_to).
Proof.
  intros after. subst after. unfold handleGroupVisibilityChange.
  destruct (existsb (String.eqb group) visible_to) eqn:Hex.
  - apply existsb_eqb_elem in Hex. split; [|split].
    + rewrite filter_other_strings. tauto.
    + intros other Hne. rewrite filter_other_strings. tauto.
    + tauto.
  - assert (Hni : group ∉ visible_to).
    { intros Hin. apply existsb_eqb_elem in Hin. congruence. }
    split; [|split].
    + rewrite elem_of_app, list_elem_of_singleton. tauto.
    + intros other Hne. rewrite elem_of_app, list_elem_of_singleton. tauto.
    + intros _.
      assert (Hnow : existsb (String.eqb group) (visible_to ++ [group]) = true).
      { apply existsb_eqb_elem. rewrite elem_of_app, list_elem_of_singleton. tauto. }
      rewrite Hnow, List.filter_app, filter_absent_string by exact Hni.
      cbn. rewrite String.eqb_refl. cbn. apply app_nil_r.
Qed.

Lemma filter_filter_id (l : list Assignee) (i : string) :
  List.filter (λ a, negb (String.eqb (a_id a) i))
    (List.filter (λ a, negb (String.eqb (a_id a) i)) l)
  = List.filter (λ a, negb (String.eqb (a_id a) i)) l.
Proof. apply filter_other_ids, filter_drops_id. Qed.

(** X19.  In the task modal, selecting the same option again changes
    nothing more: after one selection the list holds exactly one entry with
    that id, the last one, and a second selection leaves the list as the
    first made it.  Removing the id afterwards leaves the entries that had
    other ids, in their order.  The options are cleared by a selection. *)
Theorem modal_select_idempotent (modal : State) (assignee : Assignee) :
  let once := run modal (trace (handleAssigneeSelect assignee)) in
  let twice := run once (trace (handleAssigneeSelect assignee)) in
  let removed := run once (trace (handleRemoveAssignee (a_id assignee))) in
  form_assignees (formData twice) = form_assignees (formData once)
  ∧ List.filter (λ a, String.eqb (a_id a) (a_id assignee)) (form_assignees (formData once))
    = [assigneeEntry assignee]
  ∧ form_assignees (formData removed)
    = List.filter (λ a, negb (String.eqb (a_id a) (a_id assignee)))
        (form_assignees (formData modal))
  ∧ assigneeOptions once = []
  ∧ form_props (formData twice) = form_props (formData modal).
Proof.
  intros once twice removed. subst once twice removed.
  destruct modal as [[l p] ao cd]. cbn. unfold selectedAfter.
  pose proof (filter_drops_id l (a_id assignee)) as Hdrop.
  repeat split.
  - rewrite List.filter_app, filter_filter_id. cbn. rewrite String.eqb_refl. cbn.
    by rewrite app_nil_r.
  - rewrite List.filter_app. cbn. rewrite String.eqb_refl.
    assert (Hnone : List.filter (λ a, String.eqb (a_id a) (a_id assignee))
                      (List.filter (λ a, negb (String.eqb (a_id a) (a_id assignee))) l) = []).
    { clear Hdrop. induction l as [|x rest IH]; [reflexivity|].
      cbn [List.filter]. destruct (String.eqb (a_id x) (a_id assignee)) eqn:Hx; cbn.
      - exact IH.
      - by rewrite Hx. }
    by rewrite Hnone.
  - rewrite List.filter_app, filter_filter_id. cbn. rewrite String.eqb_refl. cbn.
    by rewrite app_nil_r.
Qed.
End ModalForm.

(** ** Samples for the properties above *)

(** Three templates of two clients. *)
Lemma groupedTemplates_partition_witness :
  ∃ groups, TemplatePage.groupedTemplates [acme_one; beta_one; acme_two] = Ok groups
            ∧ members groups ≡ₚ [acme_one; beta_one; acme_two].
Proof.
  destruct (groupedTemplates_partition [acme_one; beta_one; acme_two]) as (g & Hg & _ & _ & Hm).
  - repeat constructor.
  - exists g. split; [exact Hg | exact Hm].
Defined.

(** A list whose second template belongs to a client named [valueOf]. *)
Lemma groupedTemplates_throws_witness :
  TemplatePage.groupedTemplates
    [acme_one;
     sample_template "t4" true
       [ {| a_id := "c4"; a_name := "valueOf"; a_type := "client";
            a_client_id := Undefined; a_employee_id := Undefined |} ]]
  = Throw TypeError.
Proof.
  apply groupedTemplates_throws. apply Exists_cons_tl, Exists_cons_hd. reflexivity.
Defined.

(** The one-character query [a]. *)
Lemma gated_search_short_query_witness :
  ManagerTemplate.searchResults
    (ManagerTemplate.run manager_page
       (trace (ManagerTemplate.handleSearchChange sample_api "a" (Ok "token")
                 (Ok (Some [acme])))))
  = [].
Proof.
  exact (proj1 (gated_search_short_query sample_api "a" (Ok "token") (Ok (Some [acme]))
                  acme_page manager_page modal_two ltac:(cbn; lia))).
Defined.

(** A delete of the sample page answered with a 500. *)
Lemma rejection_is_logged_witness :
  Exists (λ ev, is_console_error ev = true)
    (trace (perform sample_api acme_page (Delete (Some (VStr "t1")))
              {| confirmed := true; token := Ok "token";
                 mutations := λ _, Throw (AxiosError (Some 500));
                 refetch := sample_refetch [] |})).
Proof.
  apply (rejection_is_logged sample_api acme_page (Delete (Some (VStr "t1")))
           {| confirmed := true; token := Ok "token";
              mutations := λ _, Throw (AxiosError (Some 500));
              refetch := sample_refetch [] |} (AxiosError (Some 500)) 0).
  - reflexivity.
  - right. split; [by eexists|]. split; [cbn; lia | reflexivity].
Defined.

(** A duplicate of the sample page answered with a 403. *)
Lemma no_toast_outside_submit_witness :
  Forall (λ ev, is_toast ev = false)
    (flatten (trace (perform sample_api acme_page (Duplicate acme_one)
                       {| confirmed := true; token := Ok "token";
                          mutations := λ _, Throw (AxiosError (Some 403));
                          refetch := sample_refetch [] |}))).
Proof.
  apply (no_toast_outside_submit sample_api acme_page (Duplicate acme_one)). discriminate.
Defined.

(** A handler of the first render, whose map is empty, refetches while the
    state holds Acme expanded. *)
Lemma stale_closure_resets_witness :
  TemplatePage.expandedGroups
    (TemplatePage.run acme_page
       (trace (TemplatePage.fetchTemplates sample_api TemplatePage.initialState
                 {| refetch_token := Ok "token"; refetch_response := Ok [acme_two] |})))
    !! TemplatePage.groupKey acme_two
  = Some false.
Proof.
  apply (stale_closure_resets sample_api TemplatePage.initialState acme_page "token"
           [acme_two] acme_two).
  - apply list_elem_of_here.
  - reflexivity.
Defined.
